(** * SHT31 protocol decoder (decoders/sht31/pd.py): a shallow embedding

    The decoder is a Python object whose methods mutate [self] and call the
    host's [put].  It is embedded as a record of the instance attributes and a
    small state / output / exception monad over that record.  Python integers
    are [Z], the bit operations are those of [Z], Python floats are the
    kernel's binary64 floats, strings are [string]. *)

From Stdlib Require Import ZArith List String Ascii Bool Lia.
From Stdlib Require Import Floats.PrimFloat Numbers.Cyclic.Int63.Uint63.
Import ListNotations.

Open Scope string_scope.
Open Scope Z_scope.

(* ------------------------------------------------------------------ *)
(** ** The byte domain *)

(** The [n] integers from [z] on, in order. *)
Fixpoint count_from (z : Z) (n : nat) : list Z :=
  match n with
  | O => []
  | S k => z :: count_from (z + 1) k
  end.

(** The integers [0 .. n-1], in order. *)
Definition below (n : Z) : list Z := count_from 0 (Z.to_nat n).

(** The 256 values of a byte. *)
Definition byte_values : list Z := below 256.

Definition is_byte (b : Z) : Prop := 0 <= b < 256.

(* ------------------------------------------------------------------ *)
(** ** The [crc] package

    pd.py imports the third-party package [crc]; its code is not part of the
    sources.  The decoder uses [crc.Configuration], [crc.CrcCalculator] and the
    calculator's [calculate_checksum] and [verify_checksum]. *)

Module crc.

(** Modelled from the spec: [crc.Configuration] is missing from the sources;
    the spec's ChecksumConfig is width, polynomial, init, final_xor,
    reflect_input and reflect_output, in the order pd.py passes them. *)
Record Configuration := mkConfiguration {
  width : Z;
  polynomial : Z;
  init_value : Z;
  final_xor_value : Z;
  reverse_input : bool;
  reverse_output : bool
}.

(** Modelled from the spec: the register mask and its top bit for the
    configured width, missing from the sources. *)
Definition bitmask (c : Configuration) : Z := 2 ^ width c - 1.
Definition topbit (c : Configuration) : Z := 2 ^ (width c - 1).

(** Modelled from the spec: bit reflection for the reflect_input and
    reflect_output flags, missing from the sources: the low [n] bits of [v]
    in reverse order. *)
Fixpoint reflect (n : nat) (v : Z) : Z :=
  match n with
  | O => 0
  | S k => Z.lor (Z.shiftl (Z.land v 1) (Z.of_nat k)) (reflect k (Z.shiftr v 1))
  end.

(** Modelled from the spec: one shift of the register, missing from the
    sources: the polynomial is added when the top bit falls out. *)
Definition shift_round (c : Configuration) (reg : Z) : Z :=
  if Z.land reg (topbit c) =? 0
  then Z.land (Z.shiftl reg 1) (bitmask c)
  else Z.land (Z.lxor (Z.shiftl reg 1) (polynomial c)) (bitmask c).

(** Modelled from the spec: the bit-at-a-time step of the checksum engine,
    missing from the sources ("standard bit-at-a-time CRC-8 over the given
    bytes using ChecksumConfig"). *)
Definition process_byte (c : Configuration) (reg byte : Z) : Z :=
  Nat.iter 8 (shift_round c) (Z.lxor reg (Z.shiftl byte (width c - 8))).

(** Modelled from the spec: the 256-entry lookup table of the
    table-accelerated engine, missing from the sources; entry [i] is the
    register after the byte [i] has gone through an all-zero register. *)
Definition lookup_table (c : Configuration) : list Z :=
  map (process_byte c 0) byte_values.

(** Modelled from the spec: the table-accelerated step, missing from the
    sources. *)
Definition table_process_byte (c : Configuration) (table : list Z)
           (reg byte : Z) : Z :=
  let index := Z.lxor byte (Z.shiftr reg (width c - 8)) in
  Z.land (Z.lxor (nth (Z.to_nat index) table 0) (Z.shiftl reg 8)) (bitmask c).

(** Modelled from the spec: [crc.CrcCalculator] is missing from the sources;
    it is built from a configuration and the [use_table] flag, and the table
    is computed once, at construction. *)
Record CrcCalculator := mkCrcCalculator {
  configuration : Configuration;
  table_based : bool;
  table : list Z
}.

(** Modelled from the spec: the constructor call
    [crc.CrcCalculator(configuration, use_table)], missing from the sources. *)
Definition new_CrcCalculator (c : Configuration) (use_table : bool)
  : CrcCalculator :=
  mkCrcCalculator c use_table (if use_table then lookup_table c else []).

(** Modelled from the spec: one input byte through the engine the
    calculator was built with, missing from the sources. *)
Definition feed (k : CrcCalculator) (reg byte : Z) : Z :=
  let c := configuration k in
  let byte := if reverse_input c then reflect 8 byte else byte in
  if table_based k
  then table_process_byte c (table k) reg byte
  else process_byte c reg byte.

(** Modelled from the spec: [compute(bytes) -> u8] of the checksum engine
    ([calculate_checksum] in pd.py), missing from the sources: total, no
    error condition. *)
Definition calculate_checksum (k : CrcCalculator) (data : list Z) : Z :=
  let c := configuration k in
  let reg := fold_left (feed k) data (init_value c) in
  let reg := if reverse_output c then reflect (Z.to_nat (width c)) reg else reg in
  Z.lxor reg (final_xor_value c).

(** Modelled from the spec: [verify(bytes, expected) -> bool] of the checksum
    engine ([verify_checksum] in pd.py), missing from the sources: it
    compares the computed checksum with the expected one. *)
Definition verify_checksum (k : CrcCalculator) (data : list Z)
           (expected_checksum : Z) : bool :=
  calculate_checksum k data =? expected_checksum.

End crc.

(** The reference CRC-8 in the spec's words: polynomial 0x31, initial value
    0xFF, final XOR 0x00, no input or output reflection, bit at a time. *)
Definition crc8_shift (reg : Z) : Z :=
  if Z.testbit reg 7
  then Z.land (Z.lxor (Z.shiftl reg 1) 0x31) 0xFF
  else Z.land (Z.shiftl reg 1) 0xFF.

Definition crc8_byte (reg b : Z) : Z :=
  crc8_shift (crc8_shift (crc8_shift (crc8_shift
    (crc8_shift (crc8_shift (crc8_shift (crc8_shift (Z.lxor reg b)))))))).

Definition crc8_reference (B : list Z) : Z :=
  Z.lxor (fold_left crc8_byte B 0xFF) 0x00.

(* ------------------------------------------------------------------ *)
(** ** Python's [%] formatting of integers and floats *)

Definition hex_digit (upper : bool) (d : Z) : ascii :=
  if d <? 10 then ascii_of_nat (Z.to_nat (48 + d))
  else ascii_of_nat (Z.to_nat ((if upper then 55 else 87) + d)).

Fixpoint hex_digits (fuel : nat) (upper : bool) (n : Z) (acc : string) : string :=
  let acc' := String (hex_digit upper (n mod 16)) acc in
  match fuel with
  | O => acc'
  | S f => if n / 16 =? 0 then acc' else hex_digits f upper (n / 16) acc'
  end.

(** The hexadecimal digits of a non-negative integer. *)
Definition hex (upper : bool) (n : Z) : string :=
  hex_digits (Z.to_nat (Z.log2 n)) upper n "".

Fixpoint zeros (n : nat) : string :=
  match n with O => "" | S k => String "0" (zeros k) end.

(** ['%02x' % n] and ['%02X' % n]: at least two characters, the sign
    included, padded with zeros after the sign. *)
Definition fmt_02 (upper : bool) (n : Z) : string :=
  if n <? 0
  then let ds := hex upper (- n) in
       "-" ++ zeros (1 - String.length ds) ++ ds
  else let ds := hex upper n in
       zeros (2 - String.length ds) ++ ds.

Definition fmt_02x : Z -> string := fmt_02 false.
Definition fmt_02X : Z -> string := fmt_02 true.

(** The text of an annotation: a finished string, or a format with one [%s]
    and one [%.1f] whose arguments are kept (the decimal rendering of the
    float is the formatter's). *)
Inductive text :=
| Str (s : string)
| Fmt_s_1f (fmt : string) (arg_s : string) (arg_f : float).

(** [float(n)] for a Python integer. *)
Definition float_of_int (n : Z) : float :=
  if n <? 0
  then PrimFloat.opp (PrimFloat.of_uint63 (Uint63.of_Z (- n)))
  else PrimFloat.of_uint63 (Uint63.of_Z n).

(* ------------------------------------------------------------------ *)
(** ** Results, exceptions and the decoder monad *)

Inductive exn :=
| AttributeError (name : string)
| IndexError.

Inductive result (A : Type) :=
| Ok (a : A)
| Raise (e : exn).
Arguments Ok {A} a.
Arguments Raise {A} e.

(** One call of the host's [put(ss, es, output_id, [cls, [text]])]. *)
Record Put := mkPut {
  put_ss : Z;
  put_es : Z;
  put_out : nat;
  ann_class : Z;
  ann_text : text
}.

(** The instance attributes.  [reset] assigns [state], [databytes] and
    [crc_calculator]; [start] assigns [out_ann]; [decode] assigns [ss] and
    [es]; [handle_periodic_data] assigns [ss_block] and [es_block].  An
    attribute that has not been assigned yet is [None]. *)
Record Decoder := mkDecoder {
  state : string;
  databytes : list Z;
  crc_calculator : crc.CrcCalculator;
  out_ann : option nat;
  ss : option Z;
  es : option Z;
  ss_block : option Z;
  es_block : option Z
}.

(** A method body: it reads and writes the instance, appends to the
    annotation output, and returns or raises. *)
Definition M (A : Type) : Type := Decoder -> result (A * Decoder * list Put).

Definition ret {A} (a : A) : M A := fun d => Ok (a, d, []).

Definition bind {A B} (m : M A) (f : A -> M B) : M B :=
  fun d =>
    match m d with
    | Raise e => Raise e
    | Ok (a, d1, o1) =>
        match f a d1 with
        | Raise e => Raise e
        | Ok (b, d2, o2) => Ok (b, d2, (o1 ++ o2)%list)
        end
    end.

Notation "'do' x <- m ; k" := (bind m (fun x => k))
  (at level 10, x name, m at level 100, k at level 200).
Notation "m ;; k" := (bind m (fun _ => k))
  (at level 100, k at level 200, right associativity).

Definition raise {A} (e : exn) : M A := fun _ => Raise e.
Definition get {A} (f : Decoder -> A) : M A := fun d => Ok (f d, d, []).
Definition modify (f : Decoder -> Decoder) : M unit := fun d => Ok (tt, f d, []).
Definition emit (p : Put) : M unit := fun d => Ok (tt, d, [p]).

(** Reading an attribute that may not have been assigned. *)
Definition attr {A} (name : string) (f : Decoder -> option A) : M A :=
  fun d => match f d with
           | Some a => Ok (a, d, [])
           | None => Raise (AttributeError name)
           end.

(** [l[i]] for a constant, non-negative index. *)
Definition index (l : list Z) (i : nat) : M Z :=
  match nth_error l i with
  | Some x => ret x
  | None => raise IndexError
  end.

(** [l[i:j]]. *)
Definition slice (l : list Z) (i j : nat) : list Z := firstn (j - i) (skipn i l).

Definition set_state (s : string) (d : Decoder) : Decoder :=
  mkDecoder s (databytes d) (crc_calculator d) (out_ann d)
            (ss d) (es d) (ss_block d) (es_block d).
Definition set_databytes (l : list Z) (d : Decoder) : Decoder :=
  mkDecoder (state d) l (crc_calculator d) (out_ann d)
            (ss d) (es d) (ss_block d) (es_block d).
Definition set_crc_calculator (k : crc.CrcCalculator) (d : Decoder) : Decoder :=
  mkDecoder (state d) (databytes d) k (out_ann d)
            (ss d) (es d) (ss_block d) (es_block d).
Definition set_out_ann (o : nat) (d : Decoder) : Decoder :=
  mkDecoder (state d) (databytes d) (crc_calculator d) (Some o)
            (ss d) (es d) (ss_block d) (es_block d).
Definition set_ss_es (s e : Z) (d : Decoder) : Decoder :=
  mkDecoder (state d) (databytes d) (crc_calculator d) (out_ann d)
            (Some s) (Some e) (ss_block d) (es_block d).
Definition set_ss_block (s : Z) (d : Decoder) : Decoder :=
  mkDecoder (state d) (databytes d) (crc_calculator d) (out_ann d)
            (ss d) (es d) (Some s) (es_block d).
Definition set_es_block (e : Z) (d : Decoder) : Decoder :=
  mkDecoder (state d) (databytes d) (crc_calculator d) (out_ann d)
            (ss d) (es d) (ss_block d) (Some e).

(* ------------------------------------------------------------------ *)
(** ** The methods of [Decoder] *)

Definition sht31_configuration : crc.Configuration :=
  let width := 8 in
  let poly := 0x31 in
  let init_value := 0xFF in
  let final_xor_value := 0x00 in
  let reverse_input := false in
  let reverse_output := false in
  crc.mkConfiguration width poly init_value final_xor_value
                      reverse_input reverse_output.

Definition reset : M unit :=
  modify (set_state "IDLE") ;;
  modify (set_databytes []) ;;
  let configuration := sht31_configuration in
  let use_table := true in
  modify (set_crc_calculator (crc.new_CrcCalculator configuration use_table)).

(** [start]: the host's [register(srd.OUTPUT_ANN)] hands out the output id. *)
Definition start (registered : nat) : M unit :=
  modify (set_out_ann registered).

(** Annotations which span exactly one packet. *)
Definition putx (cls : Z) (t : text) : M unit :=
  do s <- attr "ss" ss;
  do e <- attr "es" es;
  do o <- attr "out_ann" out_ann;
  emit (mkPut s e o cls t).

(** Annotations which span a block of packets. *)
Definition putb (cls : Z) (t : text) : M unit :=
  do s <- attr "ss_block" ss_block;
  do e <- attr "es_block" es_block;
  do o <- attr "out_ann" out_ann;
  emit (mkPut s e o cls t).

(** [addr in range(0x44, 0x45 + 1)] *)
Definition in_sht31_range (addr : Z) : bool :=
  (0x44 <=? addr) && (addr <? 0x45 + 1).

Definition slave_warning (addr : Z) : text :=
  Str ("Warning: I²C slave address 0x" ++ fmt_02x addr ++ " not an SHT31 sensor.").

Definition warn_upon_invalid_slave (addr : Z) : M unit :=
  if negb (in_sht31_range addr)
  then putx 4 (slave_warning addr)
  else ret tt.

Definition warn_upon_crc_error (data : list Z) (expected_crc : Z) : M unit :=
  do k <- get crc_calculator;
  let crc := crc.calculate_checksum k data in
  if crc.verify_checksum k data expected_crc
  then putx 3 (Str ("CRC: " ++ fmt_02X crc))
  else putx 4 (Str ("Warning: CRC: " ++ fmt_02X crc)).

(** [-45 + 175 * float(raw) / (2**16 - 1)] *)
Definition celsius (raw : Z) : float :=
  PrimFloat.add (float_of_int (-45))
    (PrimFloat.div (PrimFloat.mul (float_of_int 175) (float_of_int raw))
                   (float_of_int (2 ^ 16 - 1))).

(** [100 * float(raw) / (2**16 - 1)] *)
Definition relative_humidity (raw : Z) : float :=
  PrimFloat.div (PrimFloat.mul (float_of_int 100) (float_of_int raw))
                (float_of_int (2 ^ 16 - 1)).

(** [(hi << 8) | lo] *)
Definition shl8_or (hi lo : Z) : Z := Z.lor (Z.shiftl hi 8) lo.

Definition output_temperature : M unit :=
  do l <- get databytes;
  do b0 <- index l 0;
  do b1 <- index l 1;
  let raw := shl8_or b0 b1 in
  putb 0 (Fmt_s_1f "%s: %.1f °C" "Temperature" (celsius raw)).

Definition output_relative_humidity : M unit :=
  do l <- get databytes;
  do b2 <- index l 2;
  do b3 <- index l 3;
  let raw := shl8_or b2 b3 in
  putb 1 (Fmt_s_1f "%s: %.1f %%" "Relative Humidity" (relative_humidity raw)).

Definition len : M Z := get (fun d => Z.of_nat (List.length (databytes d))).

Definition handle_periodic_data (b : Z) (rw : string) : M unit :=
  modify (fun d => set_databytes (databytes d ++ [b])%list d) ;;
  do n <- len;
  if (n =? 1) || (n =? 4) then
    do s <- attr "ss" ss;
    modify (set_ss_block s)
  else if n =? 2 then
    do e <- attr "es" es;
    modify (set_es_block e) ;;
    output_temperature
  else if n =? 3 then
    do s <- attr "ss" ss;
    modify (set_ss_block s) ;;
    do e <- attr "es" es;
    modify (set_es_block e) ;;
    do l <- get databytes;
    do crc_byte <- index l 2;
    warn_upon_crc_error (slice l 0 2) crc_byte
  else
    (if n =? 5 then
       do e <- attr "es" es;
       modify (set_es_block e) ;;
       output_relative_humidity
     else ret tt) ;;
    do n <- len;
    if n =? 6 then
      do s <- attr "ss" ss;
      modify (set_ss_block s) ;;
      do e <- attr "es" es;
      modify (set_es_block e) ;;
      do l <- get databytes;
      do crc_byte <- index l 5;
      warn_upon_crc_error (slice l 3 5) crc_byte ;;
      modify (set_databytes [])
    else ret tt.

(** A packet of the I²C decoder: the command and its data byte.  START and
    STOP carry no byte; [decode] never looks at [databyte] for them. *)
Definition packet : Type := string * Z.

(** [cmd[5:]] *)
Definition drop5 (cmd : string) : string :=
  String.substring 5 (String.length cmd - 5) cmd.

Definition decode (ss0 es0 : Z) (data : packet) : M unit :=
  let '(cmd, databyte) := data in
  modify (set_ss_es ss0 es0) ;;
  do st <- get state;
  if String.eqb st "IDLE" then
    if negb (String.eqb cmd "START") then ret tt
    else modify (set_state "GET SLAVE ADDR")
  else if String.eqb st "GET SLAVE ADDR" then
    if String.eqb cmd "ADDRESS READ" then
      warn_upon_invalid_slave databyte ;;
      modify (set_state "READ PERIODIC DATA")
    else ret tt
  else if String.eqb st "READ PERIODIC DATA" then
    if String.eqb cmd "DATA READ" then
      handle_periodic_data databyte (drop5 cmd)
    else if String.eqb cmd "STOP" then
      modify (set_state "IDLE")
    else ret tt
  else ret tt.

(** An instance before [__init__]: no attribute is assigned.  The first three
    fields only fill the record; [reset] overwrites them before they are
    read. *)
Definition blank : Decoder :=
  mkDecoder "" [] (crc.mkCrcCalculator sht31_configuration false [])
            None None None None None.

Definition after {A} (m : M A) (d : Decoder) : Decoder :=
  match m d with
  | Ok (_, d', _) => d'
  | Raise _ => d
  end.

Definition output_of {A} (m : M A) (d : Decoder) : list Put :=
  match m d with
  | Ok (_, _, o) => o
  | Raise _ => []
  end.

(** [__init__] calls [reset]. *)
Definition __init__ : Decoder := after reset blank.

(** What the host does with a decoder once [start] has run. *)
Inductive call :=
| CallReset
| CallDecode (ss0 es0 : Z) (data : packet).

Definition perform (c : call) : M unit :=
  match c with
  | CallReset => reset
  | CallDecode ss0 es0 data => decode ss0 es0 data
  end.

Fixpoint run (cs : list call) : M unit :=
  match cs with
  | [] => ret tt
  | c :: cs' => perform c ;; run cs'
  end.

(** The packets of the I²C decoder that the SHT31 decoder is specified on:
    six commands, with a byte where the command carries one. *)
Definition commands : list string :=
  ["START"; "ADDRESS READ"; "ADDRESS WRITE"; "DATA READ"; "DATA WRITE"; "STOP"].

Definition carries_byte : list string :=
  ["ADDRESS READ"; "ADDRESS WRITE"; "DATA READ"; "DATA WRITE"].

Definition well_formed (data : packet) : Prop :=
  In (fst data) commands /\ (In (fst data) carries_byte -> is_byte (snd data)).

Definition well_formed_call (c : call) : Prop :=
  match c with
  | CallReset => True
  | CallDecode _ _ data => well_formed data
  end.

(** The decoder the host holds once [__init__] and [start] have run. *)
Definition started (registered : nat) : Decoder := after (start registered) __init__.

(** A decoder state the host can bring about: construction, [start], then
    any number of [decode] calls on well-formed packets and of [reset]s. *)
Definition reachable (d : Decoder) : Prop :=
  exists registered cs out,
    Forall well_formed_call cs /\
    run cs (started registered) = Ok (tt, d, out).

(** The states after each call of a sequence, up to the first exception. *)
Fixpoint trace (cs : list call) (d : Decoder) : list Decoder :=
  match cs with
  | [] => []
  | c :: cs' =>
      match perform c d with
      | Ok (_, d', _) => d' :: trace cs' d'
      | Raise _ => []
      end
  end.

Definition is_decode (c : call) : Prop :=
  match c with CallDecode _ _ _ => True | CallReset => False end.

Definition reading (d : Decoder) : bool := String.eqb (state d) "READ PERIODIC DATA".

(** The temperature and humidity formulas in the spec's words. *)
Definition temperature_celsius (raw : Z) : float :=
  (-45 + 175 * float_of_int raw / 65535)%float.

Definition relative_humidity_percent (raw : Z) : float :=
  (100 * float_of_int raw / 65535)%float.

(** "Partial bytes are not carried into the next transaction", as the spec
    words it: after a STOP in the middle of a reading, the buffer is empty
    the first time the decoder is reading again. *)
Definition partial_bytes_abandoned : Prop :=
  forall d s e b cs d',
    reachable d ->
    state d = "READ PERIODIC DATA" ->
    databytes d <> [] ->
    Forall is_decode cs ->
    find reading (trace (CallDecode s e ("STOP", b) :: cs) d) = Some d' ->
    databytes d' = [].

(** "The humidity value is built from the bytes at indices 3 and 4", as the
    spec words it. *)
Definition humidity_raw_spec (l : list Z) : option Z :=
  match nth_error l 3, nth_error l 4 with
  | Some hi, Some lo => Some (hi * 256 + lo)
  | _, _ => None
  end.

(** The invariant of the reachable states. *)

Definition known_state (st : string) : Prop :=
  st = "IDLE" \/ st = "GET SLAVE ADDR" \/ st = "READ PERIODIC DATA".

Record inv (d : Decoder) : Prop := mkInv {
  inv_state : known_state (state d);
  inv_out : exists o, out_ann d = Some o;
  inv_len : (List.length (databytes d) <= 5)%nat;
  inv_block : databytes d <> [] -> exists s, ss_block d = Some s
}.

(** The annotation classes of the checksum annotations: text and warning. *)
Definition checksum_class (p : Put) : Prop := ann_class p = 3 \/ ann_class p = 4.

(** The decoder after START, ADDRESS READ 0x44 and the bytes 0x61, 0x62. *)
Definition two_bytes_in : Decoder :=
  after (run [CallDecode 0 1 ("START", 0);
              CallDecode 2 3 ("ADDRESS READ", 0x44);
              CallDecode 10 11 ("DATA READ", 0x61);
              CallDecode 12 13 ("DATA READ", 0x62)]) (started 0).

(** The decoder after START, ADDRESS READ 0x44 and the byte 0x61. *)
Definition one_byte_in : Decoder :=
  after (run [CallDecode 0 1 ("START", 0);
              CallDecode 2 3 ("ADDRESS READ", 0x44);
              CallDecode 10 11 ("DATA READ", 0x61)]) (started 0).

(** The decoder after START, ADDRESS READ 0x44 and the bytes 0x61, 0x62,
    0xBE, 0x63. *)
Definition four_bytes_in : Decoder :=
  after (run [CallDecode 0 1 ("START", 0);
              CallDecode 2 3 ("ADDRESS READ", 0x44);
              CallDecode 10 11 ("DATA READ", 0x61);
              CallDecode 12 13 ("DATA READ", 0x62);
              CallDecode 14 15 ("DATA READ", 0xBE);
              CallDecode 16 17 ("DATA READ", 0x63)]) (started 0).

(** Whether [decode] has a branch that acts on the command in the state. *)
Definition reacts (st cmd : string) : bool :=
  (String.eqb st "IDLE" && String.eqb cmd "START")
  || (String.eqb st "GET SLAVE ADDR" && String.eqb cmd "ADDRESS READ")
  || (String.eqb st "READ PERIODIC DATA"
      && (String.eqb cmd "DATA READ" || String.eqb cmd "STOP")).

(** A [decode] call whose command has no branch in the state [st]. *)
Definition ignored_call (st : string) (c : call) : Prop :=
  match c with
  | CallReset => False
  | CallDecode _ _ data => reacts st (fst data) = false
  end.

(** A DATA READ packet: start sample, end sample, byte. *)
Definition data_packet : Type := Z * Z * Z.
Definition pss (p : data_packet) : Z := fst (fst p).
Definition pes (p : data_packet) : Z := snd (fst p).
Definition pbyte (p : data_packet) : Z := snd p.

Definition data_read (p : data_packet) : call :=
  CallDecode (pss p) (pes p) ("DATA READ", pbyte p).

(** The annotation [warn_upon_crc_error] puts over the samples [s .. e]. *)
Definition crc_put (k : crc.CrcCalculator) (data : list Z) (expected_crc : Z)
           (s e : Z) (o : nat) : Put :=
  let crc := crc.calculate_checksum k data in
  if crc.verify_checksum k data expected_crc
  then mkPut s e o 3 (Str ("CRC: " ++ fmt_02X crc))
  else mkPut s e o 4 (Str ("Warning: CRC: " ++ fmt_02X crc)).

(** The four annotations of one reading of six DATA READ packets, in the
    order the code emits them. *)
Definition reading_annotations (k : crc.CrcCalculator) (o : nat)
           (p0 p1 p2 p3 p4 p5 : data_packet) : list Put :=
  [ mkPut (pss p0) (pes p1) o 0
          (Fmt_s_1f "%s: %.1f °C" "Temperature"
                    (celsius (shl8_or (pbyte p0) (pbyte p1))));
    crc_put k [pbyte p0; pbyte p1] (pbyte p2) (pss p2) (pes p2) o;
    mkPut (pss p3) (pes p4) o 1
          (Fmt_s_1f "%s: %.1f %%" "Relative Humidity"
                    (relative_humidity (shl8_or (pbyte p2) (pbyte p3))));
    crc_put k [pbyte p3; pbyte p4] (pbyte p5) (pss p5) (pes p5) o ].

(** The annotation of [warn_upon_invalid_slave], if any. *)
Definition slave_annotations (addr s e : Z) (o : nat) : list Put :=
  if in_sht31_range addr then [] else [mkPut s e o 4 (slave_warning addr)].

(** What is left in the buffer of a stream of bytes cut into readings of
    six. *)
Definition unfinished (bytes : list Z) : list Z :=
  skipn (6 * (List.length bytes / 6)) bytes.

(** The decoder after [__init__] and a START, without [start]. *)
Definition not_started : Decoder := after (decode 0 1 ("START", 0)) __init__.

(* ------------------------------------------------------------------ *)
(** * Properties *)

Arguments crc.calculate_checksum : simpl never.
Arguments crc.verify_checksum : simpl never.
Arguments crc.new_CrcCalculator : simpl never.
Arguments fmt_02X : simpl never.
Arguments fmt_02x : simpl never.
Arguments celsius : simpl never.
Arguments relative_humidity : simpl never.
Arguments shl8_or : simpl never.
Arguments String.append : simpl never.

Ltac unfold_methods :=
  unfold decode, handle_periodic_data, warn_upon_crc_error,
    warn_upon_invalid_slave, output_temperature, output_relative_humidity,
    putb, putx, attr, index, emit, bind, modify, get, len, ret.

Ltac unfold_methods_in H :=
  unfold decode, handle_periodic_data, warn_upon_crc_error,
    warn_upon_invalid_slave, output_temperature, output_relative_humidity,
    putb, putx, attr, index, emit, bind, modify, get, len, ret in H.

Ltac finish_ok := cbn; do 2 eexists; (split; [reflexivity|]); cbn.

Ltac inv_done :=
  split; cbn; unfold known_state; eauto; try lia; try discriminate.

(** ** Checks by enumeration *)

Lemma count_from_complete (n : nat) :
  forall z x, z <= x < z + Z.of_nat n -> In x (count_from z n).
Proof.
  induction n as [|n IH]; intros z x H; cbn [count_from].
  - lia.
  - destruct (Z.eq_dec z x) as [-> | N]; [left; reflexivity|].
    right. apply IH. lia.
Qed.

Lemma below_complete (n z : Z) : 0 <= z < n -> In z (below n).
Proof.
  intros H. unfold below. apply count_from_complete. lia.
Qed.

(** A boolean check run over [below n] holds of every integer in the range. *)
Lemma forall_below (n : Z) (P : Z -> bool) :
  forallb P (below n) = true -> forall z, 0 <= z < n -> P z = true.
Proof.
  intros H z Hz. rewrite forallb_forall in H. apply H.
  now apply below_complete.
Qed.

Lemma forall_byte (P : Z -> bool) :
  forallb P byte_values = true -> forall b, is_byte b -> P b = true.
Proof. apply forall_below. Qed.

(** ** What [reset] and [start] leave *)

Lemma reset_eq (d : Decoder) :
  reset d =
  Ok (tt,
      mkDecoder "IDLE" [] (crc.new_CrcCalculator sht31_configuration true)
                (out_ann d) (ss d) (es d) (ss_block d) (es_block d),
      []).
Proof. reflexivity. Qed.

Lemma started_eq (o : nat) :
  started o =
  mkDecoder "IDLE" [] (crc.new_CrcCalculator sht31_configuration true)
            (Some o) None None None None.
Proof. reflexivity. Qed.

(** ** The invariant holds of every reachable state *)

Lemma inv_started (o : nat) : inv (started o).
Proof.
  rewrite started_eq. split; cbn.
  - left; reflexivity.
  - eauto.
  - lia.
  - congruence.
Qed.

Lemma inv_reset (d : Decoder) :
  inv d -> exists d', reset d = Ok (tt, d', []) /\ inv d'.
Proof.
  intros [_ Ho _ _]. rewrite reset_eq. eexists; split; [reflexivity|].
  split; cbn; [left; reflexivity | assumption | lia | congruence].
Qed.

Lemma inv_decode (s e : Z) (data : packet) (d : Decoder) :
  inv d -> exists d' out, decode s e data d = Ok (tt, d', out) /\ inv d'.
Proof.
  destruct data as [cmd b].
  destruct d as [st l k oa s0 e0 sb eb].
  intros [Hst [o Ho] Hlen Hsb]; cbn in *; subst oa.
  unfold known_state in *. unfold_methods.
  destruct Hst as [-> | [-> | ->]]; cbn.
  - destruct (String.eqb cmd "START"); finish_ok; inv_done.
  - destruct (String.eqb cmd "ADDRESS READ"); cbn;
      [destruct (negb (in_sht31_range b))|]; finish_ok; inv_done.
  - destruct (String.eqb cmd "DATA READ").
    2:{ destruct (String.eqb cmd "STOP"); finish_ok; inv_done. }
    destruct l as [|b0 [|b1 [|b2 [|b3 [|b4 [|b5 l]]]]]]; cbn in Hlen; try lia.
    all: try (destruct Hsb as [sb' ->]; [discriminate|]).
    all: cbn.
    all: try match goal with
             | |- context [crc.verify_checksum ?k ?d ?x] =>
                 destruct (crc.verify_checksum k d x)
             end.
    all: finish_ok; inv_done.
Qed.

Lemma inv_perform (c : call) (d : Decoder) :
  inv d -> exists d' out, perform c d = Ok (tt, d', out) /\ inv d'.
Proof.
  intros H. destruct c as [|s e data]; cbn.
  - destruct (inv_reset d H) as [d' [E I]]. eauto.
  - now apply inv_decode.
Qed.

Lemma inv_run (cs : list call) :
  forall d, inv d -> exists d' out, run cs d = Ok (tt, d', out) /\ inv d'.
Proof.
  induction cs as [|c cs IH]; intros d H; cbn.
  - exists d, []. split; [reflexivity | assumption].
  - destruct (inv_perform c d H) as [d1 [o1 [E1 I1]]].
    destruct (IH d1 I1) as [d2 [o2 [E2 I2]]].
    exists d2, (o1 ++ o2)%list. split; [|assumption].
    unfold bind. rewrite E1, E2. reflexivity.
Qed.

Lemma reachable_inv (d : Decoder) : reachable d -> inv d.
Proof.
  intros [o [cs [out [_ E]]]].
  destruct (inv_run cs (started o) (inv_started o)) as [d' [out' [E' I]]].
  rewrite E in E'. now inversion E'; subst.
Qed.

Lemma run_app (cs1 cs2 : list call) (d d1 d2 : Decoder) (o1 o2 : list Put) :
  run cs1 d = Ok (tt, d1, o1) ->
  run cs2 d1 = Ok (tt, d2, o2) ->
  run (cs1 ++ cs2) d = Ok (tt, d2, (o1 ++ o2)%list).
Proof.
  revert d o1. induction cs1 as [|c cs1 IH]; intros d o1 E1 E2; cbn in *.
  - inversion E1; subst. exact E2.
  - unfold bind in *.
    destruct (perform c d) as [[[[] dc] oc]|] eqn:Ec; [|discriminate].
    destruct (run cs1 dc) as [[[[] dr] or]|] eqn:Er; [|discriminate].
    inversion E1; subst.
    rewrite (IH dc or Er E2). now rewrite app_assoc.
Qed.

Lemma reachable_step (c : call) (d d' : Decoder) (out : list Put) :
  reachable d -> well_formed_call c -> perform c d = Ok (tt, d', out) ->
  reachable d'.
Proof.
  intros [o [cs [out0 [W E]]]] Wc Ec.
  exists o, (cs ++ [c])%list, (out0 ++ (out ++ []))%list. split.
  - apply Forall_app. split; [assumption | now constructor].
  - apply run_app with (d1 := d); [assumption|].
    cbn. unfold bind. rewrite Ec. reflexivity.
Qed.

(** ** One DATA READ packet while reading *)

Lemma data_read_step (d : Decoder) (s e b : Z) :
  inv d -> state d = "READ PERIODIC DATA" ->
  exists d' out,
    decode s e ("DATA READ", b) d = Ok (tt, d', out) /\
    state d' = "READ PERIODIC DATA" /\
    databytes d' =
      (if (List.length (databytes d ++ [b]) =? 6)%nat then []
       else (databytes d ++ [b])%list) /\
    (forall p, In p out -> checksum_class p ->
       put_ss p = s /\ put_es p = e /\
       ss_block d' = Some s /\ es_block d' = Some e) /\
    (List.length (databytes d) = 2%nat \/ List.length (databytes d) = 5%nat ->
       exists p, out = [p] /\ checksum_class p).
Proof.
  destruct d as [st l k oa s0 e0 sb eb].
  intros [_ [o Ho] Hlen Hsb] Hst; cbn in *; subst oa st.
  unfold checksum_class. unfold_methods; cbn.
  destruct l as [|b0 [|b1 [|b2 [|b3 [|b4 [|b5 l]]]]]]; cbn in Hlen; try lia.
  all: try (destruct Hsb as [sb' ->]; [discriminate|]).
  all: cbn.
  all: try match goal with
           | |- context [crc.verify_checksum ?k ?d ?x] =>
               destruct (crc.verify_checksum k d x)
           end.
  all: finish_ok.
  all: split; [reflexivity|]; split; [reflexivity|]; split.
  all: try (intros p Hin [C | C]; cbn in Hin;
            repeat (destruct Hin as [<- | Hin];
                    [cbn in C; try discriminate C; repeat split; reflexivity|]);
            contradiction).
  all: intros [H | H]; try discriminate H;
    eexists; (split; [reflexivity | cbn; auto]).
Qed.

Lemma in_sht31_range_eq (addr : Z) :
  in_sht31_range addr = (addr =? 0x44) || (addr =? 0x45).
Proof.
  unfold in_sht31_range.
  destruct (Z.eqb_spec addr 0x44), (Z.eqb_spec addr 0x45),
    (Z.leb_spec 0x44 addr), (Z.ltb_spec addr (0x45 + 1)); cbn; try reflexivity; lia.
Qed.

(** ** The claims *)

(** C8: [reset] is idempotent.  A second [reset] leaves the decoder the first
    one left (state IDLE, empty buffer, the fixed checksum configuration), and
    [reset] emits no annotation. *)
Theorem reset_idempotent (d : Decoder) :
  exists d1,
    reset d = Ok (tt, d1, []) /\
    reset d1 = Ok (tt, d1, []) /\
    state d1 = "IDLE" /\
    databytes d1 = [] /\
    crc.configuration (crc_calculator d1) =
      crc.mkConfiguration 8 0x31 0xFF 0x00 false false.
Proof.
  rewrite reset_eq. eexists. split; [reflexivity|].
  rewrite reset_eq. cbn. repeat split.
Qed.

(** C4: in state GET SLAVE ADDR an ADDRESS READ packet emits exactly one
    warning annotation (class 4, over the packet's samples) when the address is
    neither 0x44 nor 0x45 and nothing when it is one of them; in both cases
    the state becomes READ PERIODIC DATA. *)
Theorem address_read_warns_and_enters_reading
        (d : Decoder) (s e addr : Z) (o : nat) :
  state d = "GET SLAVE ADDR" ->
  out_ann d = Some o ->
  exists d',
    decode s e ("ADDRESS READ", addr) d =
      Ok (tt, d',
          if (addr =? 0x44) || (addr =? 0x45) then []
          else [mkPut s e o 4 (slave_warning addr)]) /\
    state d' = "READ PERIODIC DATA" /\
    databytes d' = databytes d.
Proof.
  destruct d as [st l k oa s0 e0 sb eb]; cbn. intros -> ->.
  unfold_methods; cbn. rewrite in_sht31_range_eq.
  destruct ((addr =? 0x44) || (addr =? 0x45)); cbn;
    eexists; repeat split.
Qed.

(** C4, at a concrete decoder: after START, the address 0x50. *)
Lemma address_read_warns_and_enters_reading_witness :
  exists d',
    decode 2 3 ("ADDRESS READ", 0x50)
           (after (decode 0 1 ("START", 0)) (started 0)) =
      Ok (tt, d', [mkPut 2 3 0%nat 4 (slave_warning 0x50)]) /\
    state d' = "READ PERIODIC DATA" /\
    databytes d' = [].
Proof.
  exact (address_read_warns_and_enters_reading
           (after (decode 0 1 ("START", 0)) (started 0)) 2 3 0x50 0%nat
           eq_refl eq_refl).
Defined.

(** C7: on a reachable decoder, [decode] of a well-formed packet returns: it
    raises no exception, and the state machine goes on from a reachable state
    in one of its three states. *)
Theorem decode_never_raises (d : Decoder) (s e : Z) (data : packet) :
  reachable d ->
  well_formed data ->
  exists d' out,
    decode s e data d = Ok (tt, d', out) /\
    reachable d' /\
    known_state (state d').
Proof.
  intros R W.
  destruct (inv_decode s e data d (reachable_inv d R)) as [d' [out [E I]]].
  exists d', out. split; [assumption|]. split.
  - apply (reachable_step (CallDecode s e data) d d' out R W E).
  - apply I.
Qed.

(** C3: whatever calls the host makes on a started decoder, they all return
    and the buffer then holds at most 5 bytes; a further DATA READ while
    reading pushes it to at most 6, and the push that reaches 6 leaves it
    empty. *)
Theorem buffer_length_bounded (o : nat) (cs : list call) :
  Forall well_formed_call cs ->
  exists d out,
    run cs (started o) = Ok (tt, d, out) /\
    (List.length (databytes d) <= 5)%nat /\
    forall s e b,
      state d = "READ PERIODIC DATA" ->
      exists d' out',
        decode s e ("DATA READ", b) d = Ok (tt, d', out') /\
        (List.length (databytes d ++ [b]) <= 6)%nat /\
        databytes d' =
          (if (List.length (databytes d ++ [b]) =? 6)%nat then []
           else (databytes d ++ [b])%list).
Proof.
  intros _.
  destruct (inv_run cs (started o) (inv_started o)) as [d [out [E I]]].
  exists d, out. split; [assumption|]. split; [apply I|].
  intros s e b Hst.
  destruct (data_read_step d s e b I Hst) as [d' [out' [E' [_ [Hd _]]]]].
  exists d', out'. split; [assumption|]. split; [|assumption].
  rewrite length_app. cbn. pose proof (inv_len d I). lia.
Qed.

(** ** Concrete decoders for the witnesses *)

Lemma run_computes (cs : list call) (o : nat) :
  (exists d out, run cs (started o) = Ok (tt, d, out)) ->
  run cs (started o) =
  Ok (tt, after (run cs) (started o), output_of (run cs) (started o)).
Proof.
  intros [d [out E]]. unfold after, output_of. rewrite E. reflexivity.
Qed.

Lemma after_run_reachable (cs : list call) (o : nat) :
  Forall well_formed_call cs -> reachable (after (run cs) (started o)).
Proof.
  intros W. exists o, cs, (output_of (run cs) (started o)).
  split; [assumption|]. apply run_computes.
  destruct (inv_run cs (started o) (inv_started o)) as [d [out [E _]]]. eauto.
Qed.

Ltac in_list := cbn; repeat ((left; reflexivity) || right); try contradiction.

Ltac solve_wf :=
  repeat first [apply Forall_nil | apply Forall_cons];
  try exact I;
  (split; [in_list | intros _; unfold is_byte; cbn; lia]).

Lemma well_formed_data_read (b : Z) : is_byte b -> well_formed ("DATA READ", b).
Proof. intros H. split; cbn; tauto. Qed.

(** C7, at a concrete decoder: two bytes are in the buffer and the third
    does not match their checksum. *)
Lemma decode_never_raises_witness :
  exists d' out,
    decode 14 15 ("DATA READ", 0x00)
           (after (run [CallDecode 0 1 ("START", 0);
                        CallDecode 2 3 ("ADDRESS READ", 0x50);
                        CallDecode 10 11 ("DATA READ", 0x61);
                        CallDecode 12 13 ("DATA READ", 0x62)]) (started 0)) =
      Ok (tt, d', out) /\
    reachable d' /\
    known_state (state d').
Proof.
  apply decode_never_raises.
  - apply after_run_reachable. solve_wf.
  - apply well_formed_data_read. unfold is_byte. lia.
Defined.

(** C3, at a concrete call sequence: a complete reading, a [reset], and the
    start of a second transaction. *)
Lemma buffer_length_bounded_witness :
  exists d out,
    run [CallDecode 0 1 ("START", 0);
         CallDecode 2 3 ("ADDRESS READ", 0x44);
         CallDecode 10 11 ("DATA READ", 0x61);
         CallDecode 12 13 ("DATA READ", 0x62);
         CallDecode 14 15 ("DATA READ", 0xBE);
         CallDecode 16 17 ("DATA READ", 0x63);
         CallDecode 18 19 ("DATA READ", 0x21);
         CallDecode 20 21 ("DATA READ", 0xAC);
         CallDecode 22 23 ("STOP", 0);
         CallReset;
         CallDecode 30 31 ("START", 0);
         CallDecode 32 33 ("ADDRESS READ", 0x44)] (started 0) = Ok (tt, d, out) /\
    (List.length (databytes d) <= 5)%nat /\
    forall s e b,
      state d = "READ PERIODIC DATA" ->
      exists d' out',
        decode s e ("DATA READ", b) d = Ok (tt, d', out') /\
        (List.length (databytes d ++ [b]) <= 6)%nat /\
        databytes d' =
          (if (List.length (databytes d ++ [b]) =? 6)%nat then []
           else (databytes d ++ [b])%list).
Proof.
  apply buffer_length_bounded. solve_wf.
Defined.

(** ** The checksum annotations *)

Lemma ignored_while_reading (d : Decoder) (s e b : Z) (cmd : string) :
  state d = "READ PERIODIC DATA" ->
  cmd <> "DATA READ" ->
  exists d', decode s e (cmd, b) d = Ok (tt, d', []).
Proof.
  destruct d as [st l k oa s0 e0 sb eb]; cbn. intros -> Hc.
  apply String.eqb_neq in Hc. unfold_methods; cbn. rewrite Hc.
  destruct (String.eqb cmd "STOP"); cbn; eexists; reflexivity.
Qed.

(** C9: while reading, every annotation of a checksum class (3 or 4) spans
    the samples of the packet that carried the checksum byte, which is the
    whole of its block: the block markers are that packet's samples too.
    Such an annotation is emitted for the bytes at positions 2 and 5. *)
Theorem checksum_annotation_span
        (d d' : Decoder) (s e b : Z) (cmd : string) (out : list Put) :
  reachable d ->
  state d = "READ PERIODIC DATA" ->
  decode s e (cmd, b) d = Ok (tt, d', out) ->
  (forall p, In p out -> checksum_class p ->
     put_ss p = s /\ put_es p = e /\
     ss_block d' = Some s /\ es_block d' = Some e) /\
  (cmd = "DATA READ" ->
   List.length (databytes d) = 2%nat \/ List.length (databytes d) = 5%nat ->
   exists p, out = [p] /\ checksum_class p).
Proof.
  intros R Hst E. destruct (String.eqb_spec cmd "DATA READ") as [-> | Hc].
  - destruct (data_read_step d s e b (reachable_inv d R) Hst)
      as [d1 [o1 [E1 [_ [_ [Hspan Hex]]]]]].
    rewrite E in E1. inversion E1; subst. split; [assumption|].
    intros _. assumption.
  - destruct (ignored_while_reading d s e b cmd Hst Hc) as [d1 E1].
    rewrite E in E1. inversion E1; subst. split.
    + intros p [].
    + intros Hc'. contradiction.
Qed.

Lemma two_bytes_in_reachable : reachable two_bytes_in.
Proof. apply after_run_reachable. solve_wf. Qed.

(** C9, at a concrete decoder: the third byte of a reading arrives. *)
Lemma checksum_annotation_span_witness :
  (forall p,
      In p (output_of (decode 14 15 ("DATA READ", 0xBE)) two_bytes_in) ->
      checksum_class p ->
      put_ss p = 14 /\ put_es p = 15 /\
      ss_block (after (decode 14 15 ("DATA READ", 0xBE)) two_bytes_in) = Some 14 /\
      es_block (after (decode 14 15 ("DATA READ", 0xBE)) two_bytes_in) = Some 15) /\
  ("DATA READ" = "DATA READ" ->
   List.length (databytes two_bytes_in) = 2%nat \/
   List.length (databytes two_bytes_in) = 5%nat ->
   exists p,
     output_of (decode 14 15 ("DATA READ", 0xBE)) two_bytes_in = [p] /\
     checksum_class p).
Proof.
  apply (checksum_annotation_span
           two_bytes_in (after (decode 14 15 ("DATA READ", 0xBE)) two_bytes_in)
           14 15 0xBE "DATA READ"
           (output_of (decode 14 15 ("DATA READ", 0xBE)) two_bytes_in)).
  - exact two_bytes_in_reachable.
  - vm_compute. reflexivity.
  - vm_compute. reflexivity.
Defined.

(** ['%02X'] tells any two bytes apart. *)
Lemma fmt_02X_byte_injective (a b : Z) :
  is_byte a -> is_byte b -> fmt_02X a = fmt_02X b -> a = b.
Proof.
  intros Ha Hb H.
  assert (C : forallb (fun x =>
                forallb (fun y => (x =? y) || negb (String.eqb (fmt_02X x) (fmt_02X y)))
                        byte_values) byte_values = true)
    by (vm_compute; reflexivity).
  pose proof (forall_byte _ C a Ha) as Ca. cbn beta in Ca.
  pose proof (forall_byte _ Ca b Hb) as Cab. cbn beta in Cab.
  rewrite H, String.eqb_refl in Cab. cbn in Cab.
  rewrite orb_false_r in Cab. now apply Z.eqb_eq.
Qed.

(** C10: the byte in the text of a checksum annotation is the checksum
    computed over the data bytes, in the OK and in the mismatch rendering;
    in the mismatch case it is not the byte that was received. *)
Theorem crc_text_shows_computed_checksum
        (d : Decoder) (data : list Z) (expected_crc s e : Z) (o : nat) :
  ss d = Some s -> es d = Some e -> out_ann d = Some o ->
  let crc := crc.calculate_checksum (crc_calculator d) data in
  (crc = expected_crc /\
   warn_upon_crc_error data expected_crc d =
     Ok (tt, d, [mkPut s e o 3 (Str ("CRC: " ++ fmt_02X crc))]))
  \/
  (crc <> expected_crc /\
   warn_upon_crc_error data expected_crc d =
     Ok (tt, d, [mkPut s e o 4 (Str ("Warning: CRC: " ++ fmt_02X crc))]) /\
   (is_byte crc -> is_byte expected_crc -> fmt_02X crc <> fmt_02X expected_crc)).
Proof.
  destruct d as [st l k oa s0 e0 sb eb]; cbn. intros -> -> ->.
  unfold_methods; cbn. unfold crc.verify_checksum.
  destruct (Z.eqb_spec (crc.calculate_checksum k data) expected_crc) as [E | N].
  - left. split; [assumption | reflexivity].
  - right. split; [assumption|]. split; [reflexivity|].
    intros Hc He H. apply N. now apply fmt_02X_byte_injective.
Qed.

(** C10, at a concrete decoder: the bytes 0x61, 0x62 are followed by 0xBE. *)
Lemma crc_text_shows_computed_checksum_witness :
  let crc := crc.calculate_checksum (crc_calculator two_bytes_in) [0x61; 0x62] in
  (crc = 0xBE /\
   warn_upon_crc_error [0x61; 0x62] 0xBE two_bytes_in =
     Ok (tt, two_bytes_in, [mkPut 12 13 0%nat 3 (Str ("CRC: " ++ fmt_02X crc))]))
  \/
  (crc <> 0xBE /\
   warn_upon_crc_error [0x61; 0x62] 0xBE two_bytes_in =
     Ok (tt, two_bytes_in,
         [mkPut 12 13 0%nat 4 (Str ("Warning: CRC: " ++ fmt_02X crc))]) /\
   (is_byte crc -> is_byte 0xBE -> fmt_02X crc <> fmt_02X 0xBE)).
Proof.
  apply (crc_text_shows_computed_checksum two_bytes_in [0x61; 0x62] 0xBE 12 13 0%nat).
  - vm_compute. reflexivity.
  - vm_compute. reflexivity.
  - vm_compute. reflexivity.
Defined.

(** ** The checksum engine *)

(** The calculator [reset] builds computes the reference CRC-8 on every pair
    of bytes, and the result is a byte: checked on all 65536 pairs. *)
Lemma sht31_calculator_is_crc8 (b0 b1 : Z) :
  is_byte b0 -> is_byte b1 ->
  crc.calculate_checksum (crc.new_CrcCalculator sht31_configuration true) [b0; b1]
    = crc8_reference [b0; b1] /\
  is_byte (crc8_reference [b0; b1]).
Proof.
  intros H0 H1.
  assert (C : (let k := crc.new_CrcCalculator sht31_configuration true in
               forallb (fun x =>
                 forallb (fun y =>
                   let c := crc8_reference [x; y] in
                   (crc.calculate_checksum k [x; y] =? c) && (0 <=? c) && (c <? 256))
                   byte_values) byte_values) = true)
    by (vm_compute; reflexivity).
  cbv zeta in C.
  pose proof (forall_byte _ C b0 H0) as C0. cbn beta in C0.
  pose proof (forall_byte _ C0 b1 H1) as C1. cbn beta in C1.
  apply andb_prop in C1. destruct C1 as [C1 Hhi].
  apply andb_prop in C1. destruct C1 as [Heq Hlo].
  apply Z.eqb_eq in Heq. apply Z.leb_le in Hlo. apply Z.ltb_lt in Hhi.
  split; [assumption | split; assumption].
Qed.

(** C5: with the calculator [reset] builds, [verify_checksum] of two bytes
    against [E] holds exactly when the computed checksum is [E]; the computed
    checksum is the reference CRC-8 (polynomial 0x31, initial value 0xFF, no
    final XOR, no reflection) and is one byte. *)
Theorem verify_iff_crc8 (d : Decoder) (b0 b1 E : Z) :
  is_byte b0 -> is_byte b1 ->
  let k := crc_calculator (after reset d) in
  (crc.verify_checksum k [b0; b1] E = true <->
   crc.calculate_checksum k [b0; b1] = E) /\
  crc.calculate_checksum k [b0; b1] = crc8_reference [b0; b1] /\
  is_byte (crc.calculate_checksum k [b0; b1]).
Proof.
  intros H0 H1 k.
  assert (Hk : k = crc.new_CrcCalculator sht31_configuration true).
  { unfold k, after. rewrite reset_eq. reflexivity. }
  rewrite Hk.
  destruct (sht31_calculator_is_crc8 b0 b1 H0 H1) as [Heq Hb].
  split; [|split].
  - unfold crc.verify_checksum. apply Z.eqb_eq.
  - exact Heq.
  - rewrite Heq. exact Hb.
Qed.

(** C5, at concrete bytes: 0xBE 0xEF has the checksum 0x92. *)
Lemma verify_iff_crc8_witness :
  let k := crc_calculator (after reset blank) in
  (crc.verify_checksum k [0xBE; 0xEF] 0x92 = true <->
   crc.calculate_checksum k [0xBE; 0xEF] = 0x92) /\
  crc.calculate_checksum k [0xBE; 0xEF] = crc8_reference [0xBE; 0xEF] /\
  is_byte (crc.calculate_checksum k [0xBE; 0xEF]).
Proof.
  apply (verify_iff_crc8 blank 0xBE 0xEF 0x92); unfold is_byte; lia.
Defined.

Example crc8_reference_BEEF : crc8_reference [0xBE; 0xEF] = 0x92.
Proof. reflexivity. Qed.

(** ** The unit converters *)

Lemma float_of_int_literals :
  float_of_int (-45) = (-45)%float /\
  float_of_int 175 = 175%float /\
  float_of_int 100 = 100%float /\
  float_of_int (2 ^ 16 - 1) = 65535%float.
Proof. repeat split; vm_compute; reflexivity. Qed.

(** Neighbouring raw values give strictly increasing results: checked on the
    whole 16-bit range. *)
Lemma converters_strictly_increasing (raw : Z) :
  0 <= raw < 65535 ->
  PrimFloat.ltb (celsius raw) (celsius (raw + 1)) = true /\
  PrimFloat.ltb (relative_humidity raw) (relative_humidity (raw + 1)) = true.
Proof.
  intros H.
  assert (C : forallb (fun r =>
                PrimFloat.ltb (celsius r) (celsius (r + 1)) &&
                PrimFloat.ltb (relative_humidity r) (relative_humidity (r + 1)))
              (below 65535) = true)
    by (vm_compute; reflexivity).
  pose proof (forall_below _ _ C raw H) as Cr. cbn beta in Cr.
  apply andb_prop in Cr. exact Cr.
Qed.

(** C6: the converters are [-45.0 + 175.0 * raw / 65535.0] and
    [100.0 * raw / 65535.0] in binary64; they give exactly -45, 130, 0 and 100
    at the ends of the 16-bit range; and nothing is rounded to a tenth inside:
    over the whole range neighbouring raw values give different, strictly
    increasing results. *)
Theorem unit_converters_exact :
  (forall raw, celsius raw = temperature_celsius raw) /\
  (forall raw, relative_humidity raw = relative_humidity_percent raw) /\
  celsius 0 = (-45)%float /\
  celsius 65535 = 130%float /\
  relative_humidity 0 = 0%float /\
  relative_humidity 65535 = 100%float /\
  (forall raw, 0 <= raw < 65535 ->
     PrimFloat.ltb (celsius raw) (celsius (raw + 1)) = true /\
     PrimFloat.ltb (relative_humidity raw) (relative_humidity (raw + 1)) = true).
Proof.
  destruct float_of_int_literals as [L45 [L175 [L100 L65535]]].
  split; [|split].
  - intros raw. unfold celsius, temperature_celsius.
    rewrite L45, L175, L65535. reflexivity.
  - intros raw. unfold relative_humidity, relative_humidity_percent.
    rewrite L100, L65535. reflexivity.
  - repeat split; try (vm_compute; reflexivity).
    + apply converters_strictly_increasing; assumption.
    + apply converters_strictly_increasing; assumption.
Qed.

(** C6, in the middle of the range. *)
Lemma unit_converters_exact_witness :
  PrimFloat.ltb (celsius 32767) (celsius (32767 + 1)) = true /\
  PrimFloat.ltb (relative_humidity 32767) (relative_humidity (32767 + 1)) = true.
Proof.
  apply (proj2 (proj2 (proj2 (proj2 (proj2 (proj2 unit_converters_exact)))))).
  lia.
Defined.

(** ** The humidity bytes *)

(** On bytes, [(hi << 8) | lo] is the big-endian value [hi * 256 + lo]. *)
Lemma shl8_or_bytes (hi lo : Z) :
  is_byte hi -> is_byte lo -> shl8_or hi lo = hi * 256 + lo.
Proof.
  intros Hh Hl.
  assert (C : forallb (fun x =>
                forallb (fun y => shl8_or x y =? x * 256 + y) byte_values)
              byte_values = true)
    by (vm_compute; reflexivity).
  pose proof (forall_byte _ C hi Hh) as Ch. cbn beta in Ch.
  pose proof (forall_byte _ Ch lo Hl) as Chl. cbn beta in Chl.
  now apply Z.eqb_eq.
Qed.

(** The raw humidity value is taken from the bytes at indices 2 and 3 of the
    buffer, whatever the bytes are. *)
Lemma output_relative_humidity_reads_2_3
      (d : Decoder) (b0 b1 b2 b3 sb eb : Z) (rest : list Z) (o : nat) :
  databytes d = b0 :: b1 :: b2 :: b3 :: rest ->
  ss_block d = Some sb -> es_block d = Some eb -> out_ann d = Some o ->
  output_relative_humidity d =
    Ok (tt, d,
        [mkPut sb eb o 1
               (Fmt_s_1f "%s: %.1f %%" "Relative Humidity"
                         (relative_humidity (shl8_or b2 b3)))]).
Proof.
  destruct d as [st l k oa s0 e0 sb0 eb0]; cbn. intros -> -> -> ->.
  reflexivity.
Qed.

(** C1, on the code: after the bytes 0x61 0x62 0xBE 0x63, the byte 0x21
    completes the humidity pair.  The bytes at indices 3 and 4 are 0x63 and
    0x21, but the humidity annotation is computed from 0xBE63, the bytes at
    indices 2 and 3, and the two values differ. *)
Theorem humidity_built_from_indices_2_and_3 :
  decode 18 19 ("DATA READ", 0x21) four_bytes_in =
    Ok (tt, after (decode 18 19 ("DATA READ", 0x21)) four_bytes_in,
        [mkPut 16 19 0%nat 1
               (Fmt_s_1f "%s: %.1f %%" "Relative Humidity"
                         (relative_humidity (0xBE * 256 + 0x63)))]) /\
  databytes (after (decode 18 19 ("DATA READ", 0x21)) four_bytes_in) =
    [0x61; 0x62; 0xBE; 0x63; 0x21] /\
  humidity_raw_spec [0x61; 0x62; 0xBE; 0x63; 0x21] = Some (0x63 * 256 + 0x21) /\
  relative_humidity (0xBE * 256 + 0x63) <> relative_humidity (0x63 * 256 + 0x21).
Proof.
  split; [vm_compute; reflexivity|].
  split; [vm_compute; reflexivity|].
  split; [reflexivity|].
  intros H.
  apply (f_equal (fun x => PrimFloat.ltb x 50)) in H.
  vm_compute in H. discriminate H.
Qed.

(** ** A STOP in the middle of a reading *)

Lemma stop_step (d : Decoder) (s e b : Z) :
  state d = "READ PERIODIC DATA" ->
  decode s e ("STOP", b) d = Ok (tt, set_state "IDLE" (set_ss_es s e d), []).
Proof.
  destruct d as [st l k oa s0 e0 sb eb]; cbn. intros ->. reflexivity.
Qed.

(** Outside READ PERIODIC DATA, [decode] leaves the buffer alone. *)
Lemma decode_keeps_buffer (d d' : Decoder) (s e : Z) (data : packet) (out : list Put) :
  reading d = false ->
  decode s e data d = Ok (tt, d', out) ->
  databytes d' = databytes d.
Proof.
  destruct data as [cmd b].
  destruct d as [st l k oa s0 e0 sb eb]; unfold reading; cbn.
  intros Hr E. unfold_methods_in E; cbn in E. rewrite Hr in E.
  destruct (String.eqb st "IDLE").
  { destruct (String.eqb cmd "START"); cbn in E; inversion E; reflexivity. }
  destruct (String.eqb st "GET SLAVE ADDR").
  { destruct (String.eqb cmd "ADDRESS READ"); cbn in E;
      [destruct (negb (in_sht31_range b)); destruct oa; cbn in E|];
      inversion E; reflexivity. }
  inversion E; reflexivity.
Qed.

(** From a state outside READ PERIODIC DATA, the first state of a run of
    [decode] calls that is reading again has the buffer the run began with. *)
Lemma first_reading_keeps_buffer (cs : list call) :
  forall d d',
    Forall is_decode cs ->
    inv d ->
    reading d = false ->
    find reading (trace cs d) = Some d' ->
    databytes d' = databytes d /\ inv d' /\ state d' = "READ PERIODIC DATA".
Proof.
  induction cs as [|c cs IH]; intros d d' F I Hr Hf; [discriminate Hf|].
  inversion F as [|c0 cs0 Hc Fcs]; subst.
  destruct c as [|s e data]; [contradiction|]. cbn [trace perform] in Hf.
  destruct (inv_decode s e data d I) as [d1 [o1 [E1 I1]]].
  rewrite E1 in Hf. cbn [find] in Hf.
  pose proof (decode_keeps_buffer d d1 s e data o1 Hr E1) as Hb.
  destruct (reading d1) eqn:Hr1.
  - inversion Hf; subst. split; [assumption|]. split; [assumption|].
    now apply String.eqb_eq.
  - destruct (IH d1 d' Fcs I1 Hr1 Hf) as [Hb' [I' Hs']].
    split; [congruence|]. split; assumption.
Qed.

(** C2, as stated, fails: one byte, STOP, START, ADDRESS READ, and the
    decoder is reading again with that byte still in the buffer. *)
Lemma partial_bytes_abandoned_fails : ~ partial_bytes_abandoned.
Proof.
  intros H.
  specialize (H one_byte_in 12 13 0
                [CallDecode 20 21 ("START", 0);
                 CallDecode 22 23 ("ADDRESS READ", 0x44)]
                (after (run [CallDecode 12 13 ("STOP", 0);
                             CallDecode 20 21 ("START", 0);
                             CallDecode 22 23 ("ADDRESS READ", 0x44)])
                       one_byte_in)).
  assert (R : reachable one_byte_in) by (apply after_run_reachable; solve_wf).
  assert (F : Forall is_decode
                [CallDecode 20 21 ("START", 0);
                 CallDecode 22 23 ("ADDRESS READ", 0x44)])
    by (repeat constructor).
  specialize (H R).
  assert (E : databytes
                (after (run [CallDecode 12 13 ("STOP", 0);
                             CallDecode 20 21 ("START", 0);
                             CallDecode 22 23 ("ADDRESS READ", 0x44)])
                       one_byte_in) = []).
  { apply H.
    - vm_compute. reflexivity.
    - vm_compute. discriminate.
    - exact F.
    - vm_compute. reflexivity. }
  vm_compute in E. discriminate E.
Qed.

(** C2, amended: after a STOP in READ PERIODIC DATA and any further [decode]
    calls, the first state that is reading again still holds the bytes the
    buffer held at the STOP, and the next DATA READ byte is pushed behind
    them. *)
Theorem partial_bytes_carried_over
        (d d' : Decoder) (s e b : Z) (cs : list call) :
  reachable d ->
  state d = "READ PERIODIC DATA" ->
  Forall is_decode cs ->
  find reading (trace (CallDecode s e ("STOP", b) :: cs) d) = Some d' ->
  databytes d' = databytes d /\
  state d' = "READ PERIODIC DATA" /\
  forall s1 e1 b1,
    exists d'' out,
      decode s1 e1 ("DATA READ", b1) d' = Ok (tt, d'', out) /\
      databytes d'' =
        (if (List.length (databytes d ++ [b1]) =? 6)%nat then []
         else (databytes d ++ [b1])%list).
Proof.
  intros R Hst F Hf.
  pose proof (reachable_inv d R) as I.
  cbn [trace perform] in Hf. rewrite (stop_step d s e b Hst) in Hf.
  cbn [find] in Hf.
  assert (I1 : inv (set_state "IDLE" (set_ss_es s e d))).
  { destruct I as [Hk Ho Hl Hb]. split; cbn; unfold known_state; auto. }
  assert (Hr1 : reading (set_state "IDLE" (set_ss_es s e d)) = false)
    by reflexivity.
  rewrite Hr1 in Hf.
  destruct (first_reading_keeps_buffer cs _ d' F I1 Hr1 Hf) as [Hb [I' Hs']].
  cbn in Hb. split; [assumption|]. split; [assumption|].
  intros s1 e1 b1.
  destruct (data_read_step d' s1 e1 b1 I' Hs') as [d'' [out [E [_ [Hd _]]]]].
  exists d'', out. split; [assumption|]. rewrite <- Hb. assumption.
Qed.

(** C2 amended, at a concrete decoder: one byte, STOP, START, ADDRESS READ. *)
Lemma partial_bytes_carried_over_witness :
  databytes (after (run [CallDecode 12 13 ("STOP", 0);
                         CallDecode 20 21 ("START", 0);
                         CallDecode 22 23 ("ADDRESS READ", 0x44)]) one_byte_in)
    = databytes one_byte_in /\
  state (after (run [CallDecode 12 13 ("STOP", 0);
                     CallDecode 20 21 ("START", 0);
                     CallDecode 22 23 ("ADDRESS READ", 0x44)]) one_byte_in)
    = "READ PERIODIC DATA" /\
  forall s1 e1 b1,
    exists d'' out,
      decode s1 e1 ("DATA READ", b1)
             (after (run [CallDecode 12 13 ("STOP", 0);
                          CallDecode 20 21 ("START", 0);
                          CallDecode 22 23 ("ADDRESS READ", 0x44)]) one_byte_in)
        = Ok (tt, d'', out) /\
      databytes d'' =
        (if (List.length (databytes one_byte_in ++ [b1]) =? 6)%nat then []
         else (databytes one_byte_in ++ [b1])%list).
Proof.
  apply (partial_bytes_carried_over
           one_byte_in _ 12 13 0
           [CallDecode 20 21 ("START", 0);
            CallDecode 22 23 ("ADDRESS READ", 0x44)]).
  - apply after_run_reachable. solve_wf.
  - vm_compute. reflexivity.
  - repeat constructor.
  - vm_compute. reflexivity.
Defined.

(* ------------------------------------------------------------------ *)
(** * Further properties of the decoder *)

(** ** Packets the state has no branch for *)

Lemma ignored_step (d : Decoder) (s e b : Z) (cmd : string) :
  reacts (state d) cmd = false ->
  decode s e (cmd, b) d = Ok (tt, set_ss_es s e d, []).
Proof.
  destruct d as [st l k oa s0 e0 sb eb]; unfold reacts; cbn.
  intros H. unfold_methods; cbn.
  destruct (String.eqb st "IDLE"); cbn in *.
  { destruct (String.eqb cmd "START"); [discriminate H | reflexivity]. }
  destruct (String.eqb st "GET SLAVE ADDR"); cbn in *.
  { destruct (String.eqb cmd "ADDRESS READ"); [discriminate H | reflexivity]. }
  destruct (String.eqb st "READ PERIODIC DATA"); cbn in *; [|reflexivity].
  destruct (String.eqb cmd "DATA READ"); [discriminate H|].
  destruct (String.eqb cmd "STOP"); [discriminate H | reflexivity].
Qed.

(** X1: a run of packets for which the current state has no branch (anything
    but START in IDLE, anything but ADDRESS READ in GET SLAVE ADDR, anything
    but DATA READ and STOP in READ PERIODIC DATA) returns, emits nothing and
    leaves the state, the buffer and the block markers as they were. *)
Theorem ignored_packets_change_nothing (cs : list call) :
  forall d,
    Forall (ignored_call (state d)) cs ->
    exists d',
      run cs d = Ok (tt, d', []) /\
      state d' = state d /\
      databytes d' = databytes d /\
      ss_block d' = ss_block d /\
      es_block d' = es_block d /\
      out_ann d' = out_ann d.
Proof.
  induction cs as [|c cs IH]; intros d F.
  - exists d. cbn. repeat split.
  - inversion F as [|c0 cs0 Hc Fcs]; subst.
    destruct c as [|s e [cmd b]]; [contradiction|]. cbn in Hc.
    destruct (IH (set_ss_es s e d) Fcs) as [d' [E [Hs [Hb [Hsb [Heb Ho]]]]]].
    exists d'. split.
    + cbn [run perform]. unfold bind.
      rewrite (ignored_step d s e b cmd Hc), E. reflexivity.
    + repeat split; assumption.
Qed.

(** X1, at a concrete run: a write transaction after START. *)
Lemma ignored_packets_change_nothing_witness :
  exists d',
    run [CallDecode 2 3 ("ADDRESS WRITE", 0x44);
         CallDecode 4 5 ("DATA WRITE", 0x24);
         CallDecode 6 7 ("DATA WRITE", 0x00);
         CallDecode 8 9 ("STOP", 0);
         CallDecode 10 11 ("START", 0)] not_started = Ok (tt, d', []) /\
    state d' = state not_started /\
    databytes d' = databytes not_started /\
    ss_block d' = ss_block not_started /\
    es_block d' = es_block not_started /\
    out_ann d' = out_ann not_started.
Proof.
  apply ignored_packets_change_nothing.
  repeat first [apply Forall_nil | apply Forall_cons]; vm_compute; reflexivity.
Defined.

(** ** One reading *)

(** What [decode] does with a DATA READ packet, by the number of bytes in the
    buffer. *)
Lemma push_at_0 (k : crc.CrcCalculator) (oa : option nat)
      (s0 e0 sb eb : option Z) (s e b : Z) :
  decode s e ("DATA READ", b)
         (mkDecoder "READ PERIODIC DATA" [] k oa s0 e0 sb eb) =
  Ok (tt, mkDecoder "READ PERIODIC DATA" [b] k oa
                    (Some s) (Some e) (Some s) eb, []).
Proof. reflexivity. Qed.

Lemma push_at_1 (k : crc.CrcCalculator) (o : nat)
      (s0 e0 eb : option Z) (s e b b0 sb : Z) :
  decode s e ("DATA READ", b)
         (mkDecoder "READ PERIODIC DATA" [b0] k (Some o) s0 e0 (Some sb) eb) =
  Ok (tt, mkDecoder "READ PERIODIC DATA" [b0; b] k (Some o)
                    (Some s) (Some e) (Some sb) (Some e),
      [mkPut sb e o 0
             (Fmt_s_1f "%s: %.1f °C" "Temperature" (celsius (shl8_or b0 b)))]).
Proof. reflexivity. Qed.

Lemma push_at_2 (k : crc.CrcCalculator) (o : nat)
      (s0 e0 sb eb : option Z) (s e b b0 b1 : Z) :
  decode s e ("DATA READ", b)
         (mkDecoder "READ PERIODIC DATA" [b0; b1] k (Some o) s0 e0 sb eb) =
  Ok (tt, mkDecoder "READ PERIODIC DATA" [b0; b1; b] k (Some o)
                    (Some s) (Some e) (Some s) (Some e),
      [crc_put k [b0; b1] b s e o]).
Proof.
  unfold crc_put. unfold_methods; cbn.
  destruct (crc.verify_checksum k [b0; b1] b); reflexivity.
Qed.

Lemma push_at_3 (k : crc.CrcCalculator) (oa : option nat)
      (s0 e0 sb eb : option Z) (s e b b0 b1 b2 : Z) :
  decode s e ("DATA READ", b)
         (mkDecoder "READ PERIODIC DATA" [b0; b1; b2] k oa s0 e0 sb eb) =
  Ok (tt, mkDecoder "READ PERIODIC DATA" [b0; b1; b2; b] k oa
                    (Some s) (Some e) (Some s) eb, []).
Proof. reflexivity. Qed.

Lemma push_at_4 (k : crc.CrcCalculator) (o : nat)
      (s0 e0 eb : option Z) (s e b b0 b1 b2 b3 sb : Z) :
  decode s e ("DATA READ", b)
         (mkDecoder "READ PERIODIC DATA" [b0; b1; b2; b3] k (Some o)
                    s0 e0 (Some sb) eb) =
  Ok (tt, mkDecoder "READ PERIODIC DATA" [b0; b1; b2; b3; b] k (Some o)
                    (Some s) (Some e) (Some sb) (Some e),
      [mkPut sb e o 1
             (Fmt_s_1f "%s: %.1f %%" "Relative Humidity"
                       (relative_humidity (shl8_or b2 b3)))]).
Proof. reflexivity. Qed.

Lemma push_at_5 (k : crc.CrcCalculator) (o : nat)
      (s0 e0 sb eb : option Z) (s e b b0 b1 b2 b3 b4 : Z) :
  decode s e ("DATA READ", b)
         (mkDecoder "READ PERIODIC DATA" [b0; b1; b2; b3; b4] k (Some o)
                    s0 e0 sb eb) =
  Ok (tt, mkDecoder "READ PERIODIC DATA" [] k (Some o)
                    (Some s) (Some e) (Some s) (Some e),
      [crc_put k [b3; b4] b s e o]).
Proof.
  unfold crc_put. unfold_methods; cbn.
  destruct (crc.verify_checksum k [b3; b4] b); reflexivity.
Qed.

Ltac run_step L := cbn [run perform]; unfold bind at 1; rewrite L.

(** X2: six DATA READ packets on an empty buffer make one reading: the
    temperature over the first two packets, the checksum of bytes 0 and 1
    over the third, the humidity over packets four and five (from the bytes
    at indices 2 and 3, as the code reads them), the checksum of bytes 3 and 4
    over the sixth; the checksum results do not hold the values back, and
    the buffer is empty again. *)
Theorem six_bytes_make_a_reading
        (d : Decoder) (o : nat) (p0 p1 p2 p3 p4 p5 : data_packet) :
  state d = "READ PERIODIC DATA" ->
  databytes d = [] ->
  out_ann d = Some o ->
  exists d',
    run (map data_read [p0; p1; p2; p3; p4; p5]) d =
      Ok (tt, d', reading_annotations (crc_calculator d) o p0 p1 p2 p3 p4 p5) /\
    state d' = "READ PERIODIC DATA" /\
    databytes d' = [] /\
    crc_calculator d' = crc_calculator d.
Proof.
  destruct d as [st l k oa s0 e0 sb eb]; cbn [state databytes out_ann crc_calculator].
  intros -> -> ->.
  destruct p0 as [[s0' e0'] b0], p1 as [[s1 e1] b1], p2 as [[s2 e2] b2],
           p3 as [[s3 e3] b3], p4 as [[s4 e4] b4], p5 as [[s5 e5] b5].
  unfold reading_annotations, data_read, pss, pes, pbyte.
  cbn [map fst snd].
  run_step push_at_0. run_step push_at_1. run_step push_at_2.
  run_step push_at_3. run_step push_at_4. run_step push_at_5.
  cbn [run]. unfold ret. cbn [app].
  eexists. split; [reflexivity|]. repeat split.
Qed.

(** X2, at a concrete reading. *)
Lemma six_bytes_make_a_reading_witness :
  exists d',
    run (map data_read [(10, 11, 0x61); (12, 13, 0x62); (14, 15, 0xBE);
                        (16, 17, 0x63); (18, 19, 0x21); (20, 21, 0xAC)])
        (after (run [CallDecode 0 1 ("START", 0);
                     CallDecode 2 3 ("ADDRESS READ", 0x44)]) (started 0)) =
      Ok (tt, d',
          reading_annotations
            (crc_calculator
               (after (run [CallDecode 0 1 ("START", 0);
                            CallDecode 2 3 ("ADDRESS READ", 0x44)]) (started 0)))
            0%nat (10, 11, 0x61) (12, 13, 0x62) (14, 15, 0xBE)
            (16, 17, 0x63) (18, 19, 0x21) (20, 21, 0xAC)) /\
    state d' = "READ PERIODIC DATA" /\
    databytes d' = [] /\
    crc_calculator d' =
      crc_calculator
        (after (run [CallDecode 0 1 ("START", 0);
                     CallDecode 2 3 ("ADDRESS READ", 0x44)]) (started 0)).
Proof.
  apply six_bytes_make_a_reading; vm_compute; reflexivity.
Defined.

(** ** One transaction *)

Lemma decode_start (l : list Z) (k : crc.CrcCalculator) (oa : option nat)
      (s0 e0 sb eb : option Z) (s e b : Z) :
  decode s e ("START", b) (mkDecoder "IDLE" l k oa s0 e0 sb eb) =
  Ok (tt, mkDecoder "GET SLAVE ADDR" l k oa (Some s) (Some e) sb eb, []).
Proof. reflexivity. Qed.

Lemma decode_address_read (l : list Z) (k : crc.CrcCalculator) (o : nat)
      (s0 e0 sb eb : option Z) (s e a : Z) :
  decode s e ("ADDRESS READ", a)
         (mkDecoder "GET SLAVE ADDR" l k (Some o) s0 e0 sb eb) =
  Ok (tt, mkDecoder "READ PERIODIC DATA" l k (Some o) (Some s) (Some e) sb eb,
      slave_annotations a s e o).
Proof.
  unfold slave_annotations. unfold_methods; cbn.
  destruct (in_sht31_range a); reflexivity.
Qed.

Lemma decode_stop (l : list Z) (k : crc.CrcCalculator) (oa : option nat)
      (s0 e0 sb eb : option Z) (s e b : Z) :
  decode s e ("STOP", b) (mkDecoder "READ PERIODIC DATA" l k oa s0 e0 sb eb) =
  Ok (tt, mkDecoder "IDLE" l k oa (Some s) (Some e) sb eb, []).
Proof. reflexivity. Qed.

(** X3: a whole read transaction on an idle decoder with an empty buffer:
    START, ADDRESS READ, six DATA READ packets, STOP.  The output is the
    address warning, if the address calls for one, followed by the four
    annotations of the reading, which are the same whatever the address is;
    the decoder is idle again with an empty buffer. *)
Theorem read_transaction
        (d : Decoder) (o : nat) (s1 e1 x s2 e2 a s3 e3 y : Z)
        (p0 p1 p2 p3 p4 p5 : data_packet) :
  state d = "IDLE" ->
  databytes d = [] ->
  out_ann d = Some o ->
  exists d',
    run (CallDecode s1 e1 ("START", x)
           :: CallDecode s2 e2 ("ADDRESS READ", a)
           :: map data_read [p0; p1; p2; p3; p4; p5]
           ++ [CallDecode s3 e3 ("STOP", y)])%list d =
      Ok (tt, d',
          (slave_annotations a s2 e2 o
             ++ reading_annotations (crc_calculator d) o p0 p1 p2 p3 p4 p5)%list) /\
    state d' = "IDLE" /\
    databytes d' = [].
Proof.
  destruct d as [st l k oa s0 e0 sb eb]; cbn [state databytes out_ann crc_calculator].
  intros -> -> ->.
  destruct p0 as [[s0' e0'] b0], p1 as [[s1' e1'] b1], p2 as [[s2' e2'] b2],
           p3 as [[s3' e3'] b3], p4 as [[s4 e4] b4], p5 as [[s5 e5] b5].
  unfold reading_annotations, data_read, pss, pes, pbyte.
  cbn [map fst snd app].
  run_step decode_start. run_step decode_address_read.
  run_step push_at_0. run_step push_at_1. run_step push_at_2.
  run_step push_at_3. run_step push_at_4. run_step push_at_5.
  run_step decode_stop.
  cbn [run]. unfold ret. cbn [app]. rewrite ?app_nil_r.
  eexists. split; [reflexivity|]. split; reflexivity.
Qed.

(** X3, at a concrete transaction with the address 0x50. *)
Lemma read_transaction_witness :
  exists d',
    run (CallDecode 0 1 ("START", 0)
           :: CallDecode 2 3 ("ADDRESS READ", 0x50)
           :: map data_read [(10, 11, 0x61); (12, 13, 0x62); (14, 15, 0xBE);
                             (16, 17, 0x63); (18, 19, 0x21); (20, 21, 0xAC)]
           ++ [CallDecode 22 23 ("STOP", 0)])%list (started 0) =
      Ok (tt, d',
          (slave_annotations 0x50 2 3 0%nat
             ++ reading_annotations (crc_calculator (started 0)) 0%nat
                  (10, 11, 0x61) (12, 13, 0x62) (14, 15, 0xBE)
                  (16, 17, 0x63) (18, 19, 0x21) (20, 21, 0xAC))%list) /\
    state d' = "IDLE" /\
    databytes d' = [].
Proof.
  apply read_transaction; reflexivity.
Defined.

(** ** [reset] in the middle of a reading *)

(** X5: [reset] is what drops a partial reading.  Whatever the decoder held,
    after [reset], START and ADDRESS READ the first DATA READ byte is alone
    in the buffer and opens a block at its own start sample; nothing but the
    address warning has been emitted. *)
Theorem reset_drops_partial_bytes
        (d : Decoder) (o : nat) (s1 e1 x s2 e2 a s3 e3 b : Z) :
  out_ann d = Some o ->
  exists d',
    run [CallReset;
         CallDecode s1 e1 ("START", x);
         CallDecode s2 e2 ("ADDRESS READ", a);
         CallDecode s3 e3 ("DATA READ", b)] d =
      Ok (tt, d', slave_annotations a s2 e2 o) /\
    state d' = "READ PERIODIC DATA" /\
    databytes d' = [b] /\
    ss_block d' = Some s3.
Proof.
  destruct d as [st l k oa s0 e0 sb eb]; cbn [out_ann]. intros ->.
  run_step reset_eq. cbn [out_ann ss es ss_block es_block].
  run_step decode_start. run_step decode_address_read. run_step push_at_0.
  cbn [run]. unfold ret. cbn [app]. rewrite ?app_nil_r.
  eexists. split; [reflexivity|]. repeat split.
Qed.

(** X5, at a decoder that holds two bytes of a reading. *)
Lemma reset_drops_partial_bytes_witness :
  exists d',
    run [CallReset;
         CallDecode 20 21 ("START", 0);
         CallDecode 22 23 ("ADDRESS READ", 0x45);
         CallDecode 24 25 ("DATA READ", 0x70)] two_bytes_in =
      Ok (tt, d', slave_annotations 0x45 22 23 0%nat) /\
    state d' = "READ PERIODIC DATA" /\
    databytes d' = [0x70] /\
    ss_block d' = Some 24.
Proof.
  apply reset_drops_partial_bytes. vm_compute. reflexivity.
Defined.

(** ** Without [start] *)

(** X10: on a decoder whose output was never registered, ADDRESS READ in
    GET SLAVE ADDR goes through for the addresses 0x44 and 0x45 and raises
    AttributeError for [out_ann] for every other address, when the warning
    is about to be put. *)
Theorem address_warning_needs_start (d : Decoder) (s e addr : Z) :
  out_ann d = None ->
  state d = "GET SLAVE ADDR" ->
  decode s e ("ADDRESS READ", addr) d =
    if (addr =? 0x44) || (addr =? 0x45)
    then Ok (tt, set_state "READ PERIODIC DATA" (set_ss_es s e d), [])
    else Raise (AttributeError "out_ann").
Proof.
  destruct d as [st l k oa s0 e0 sb eb]; cbn [out_ann state]. intros -> ->.
  unfold_methods; cbn. rewrite in_sht31_range_eq.
  destruct ((addr =? 0x44) || (addr =? 0x45)); reflexivity.
Qed.

(** X10, at the decoder [__init__] and a START leave. *)
Lemma address_warning_needs_start_witness :
  decode 2 3 ("ADDRESS READ", 0x50) not_started =
    if (0x50 =? 0x44) || (0x50 =? 0x45)
    then Ok (tt, set_state "READ PERIODIC DATA" (set_ss_es 2 3 not_started), [])
    else Raise (AttributeError "out_ann").
Proof.
  apply address_warning_needs_start; reflexivity.
Defined.

(** ** The two values of a reading *)

(** X11: [output_temperature] needs two bytes in the buffer and
    [output_relative_humidity] four; with fewer they raise IndexError.
    Otherwise they put one annotation over the block: the temperature from
    the big-endian value of bytes 0 and 1, the humidity from bytes 2 and 3. *)
Theorem output_values_of_the_buffer (d : Decoder) (sb eb : Z) (o : nat) :
  ss_block d = Some sb -> es_block d = Some eb -> out_ann d = Some o ->
  Forall is_byte (databytes d) ->
  output_temperature d =
    match databytes d with
    | b0 :: b1 :: _ =>
        Ok (tt, d, [mkPut sb eb o 0
                          (Fmt_s_1f "%s: %.1f °C" "Temperature"
                                    (celsius (b0 * 256 + b1)))])
    | _ => Raise IndexError
    end /\
  output_relative_humidity d =
    match databytes d with
    | _ :: _ :: b2 :: b3 :: _ =>
        Ok (tt, d, [mkPut sb eb o 1
                          (Fmt_s_1f "%s: %.1f %%" "Relative Humidity"
                                    (relative_humidity (b2 * 256 + b3)))])
    | _ => Raise IndexError
    end.
Proof.
  destruct d as [st l k oa s0 e0 sb0 eb0];
    cbn [ss_block es_block out_ann databytes]. intros -> -> -> F.
  split.
  - destruct l as [|b0 [|b1 l]]; try reflexivity.
    inversion F as [|? ? H0 F1]; subst. inversion F1 as [|? ? H1 F2]; subst.
    rewrite <- (shl8_or_bytes b0 b1 H0 H1). reflexivity.
  - destruct l as [|b0 [|b1 [|b2 [|b3 l]]]]; try reflexivity.
    inversion F as [|? ? H0 F1]; subst. inversion F1 as [|? ? H1 F2]; subst.
    inversion F2 as [|? ? H2 F3]; subst. inversion F3 as [|? ? H3 F4]; subst.
    rewrite <- (shl8_or_bytes b2 b3 H2 H3). reflexivity.
Qed.

(** X11, at the decoder that holds two bytes: the temperature is there, the
    humidity is not yet. *)
Lemma output_values_of_the_buffer_witness :
  output_temperature two_bytes_in =
    match databytes two_bytes_in with
    | b0 :: b1 :: _ =>
        Ok (tt, two_bytes_in,
            [mkPut 10 13 0%nat 0
                   (Fmt_s_1f "%s: %.1f °C" "Temperature"
                             (celsius (b0 * 256 + b1)))])
    | _ => Raise IndexError
    end /\
  output_relative_humidity two_bytes_in =
    match databytes two_bytes_in with
    | _ :: _ :: b2 :: b3 :: _ =>
        Ok (tt, two_bytes_in,
            [mkPut 10 13 0%nat 1
                   (Fmt_s_1f "%s: %.1f %%" "Relative Humidity"
                             (relative_humidity (b2 * 256 + b3)))])
    | _ => Raise IndexError
    end.
Proof.
  apply output_values_of_the_buffer; try (vm_compute; reflexivity).
  vm_compute. repeat constructor; discriminate.
Defined.

(** X4: whatever two bytes a reading holds, the temperature the decoder
    reports lies between -45 and 130 degrees and the humidity between 0 and
    100 percent: checked on the whole 16-bit range. *)
Theorem reported_values_in_range (hi lo : Z) :
  is_byte hi -> is_byte lo ->
  PrimFloat.leb (-45) (celsius (shl8_or hi lo)) = true /\
  PrimFloat.leb (celsius (shl8_or hi lo)) 130 = true /\
  PrimFloat.leb 0 (relative_humidity (shl8_or hi lo)) = true /\
  PrimFloat.leb (relative_humidity (shl8_or hi lo)) 100 = true.
Proof.
  intros Hh Hl. rewrite (shl8_or_bytes hi lo Hh Hl).
  assert (C : forallb (fun r =>
                PrimFloat.leb (-45) (celsius r) && PrimFloat.leb (celsius r) 130
                && PrimFloat.leb 0 (relative_humidity r)
                && PrimFloat.leb (relative_humidity r) 100)
              (below 65536) = true)
    by (vm_compute; reflexivity).
  assert (R : 0 <= hi * 256 + lo < 65536) by (unfold is_byte in *; lia).
  pose proof (forall_below _ _ C _ R) as Cr. cbn beta in Cr.
  apply andb_prop in Cr. destruct Cr as [Cr H4].
  apply andb_prop in Cr. destruct Cr as [Cr H3].
  apply andb_prop in Cr. destruct Cr as [H1 H2].
  repeat split; assumption.
Qed.

(** X4, at the bytes 0x61 0x62. *)
Lemma reported_values_in_range_witness :
  PrimFloat.leb (-45) (celsius (shl8_or 0x61 0x62)) = true /\
  PrimFloat.leb (celsius (shl8_or 0x61 0x62)) 130 = true /\
  PrimFloat.leb 0 (relative_humidity (shl8_or 0x61 0x62)) = true /\
  PrimFloat.leb (relative_humidity (shl8_or 0x61 0x62)) 100 = true.
Proof.
  apply reported_values_in_range; unfold is_byte; lia.
Defined.

(** ** What every call keeps *)

Ltac facts_done :=
  split; [reflexivity|]; split; [reflexivity|]; split; [cbn; lia|];
  let p := fresh "p" in
  let Hin := fresh "Hin" in
  intros p Hin; cbn in Hin;
  repeat (destruct Hin as [<- | Hin]; [cbn; split; [reflexivity | auto 6]|]);
  contradiction.

Lemma decode_step_facts (s e : Z) (data : packet) (d : Decoder) (o : nat) :
  inv d -> out_ann d = Some o ->
  exists d' out,
    decode s e data d = Ok (tt, d', out) /\
    inv d' /\
    crc_calculator d' = crc_calculator d /\
    out_ann d' = Some o /\
    (List.length out <= 1)%nat /\
    (forall p, In p out -> put_out p = o /\ In (ann_class p) [0; 1; 3; 4]).
Proof.
  intros I Ho.
  destruct (inv_decode s e data d I) as [d' [out [E I']]].
  exists d', out. split; [assumption|]. split; [assumption|].
  clear I'. destruct data as [cmd b].
  destruct d as [st l k oa s0 e0 sb eb].
  destruct I as [Hst _ Hlen Hsb]; cbn in *; subst oa.
  unfold known_state in Hst. unfold_methods_in E.
  destruct Hst as [-> | [-> | ->]]; cbn in E.
  - destruct (String.eqb cmd "START"); inversion E; subst; cbn; facts_done.
  - destruct (String.eqb cmd "ADDRESS READ"); cbn in E;
      [destruct (negb (in_sht31_range b)); cbn in E|];
      inversion E; subst; cbn; facts_done.
  - destruct (String.eqb cmd "DATA READ").
    2:{ destruct (String.eqb cmd "STOP"); inversion E; subst; cbn; facts_done. }
    destruct l as [|b0 [|b1 [|b2 [|b3 [|b4 [|b5 l]]]]]]; cbn in Hlen; try lia.
    all: try (destruct Hsb as [sb' ->]; [discriminate|]).
    all: cbn in E.
    all: try match type of E with
             | context [crc.verify_checksum ?k ?d ?x] =>
                 destruct (crc.verify_checksum k d x)
             end.
    all: cbn in E; inversion E; subst; cbn; facts_done.
Qed.

Lemma run_keeps_calculator (cs : list call) (o : nat) :
  forall d d' out,
    inv d -> out_ann d = Some o ->
    crc_calculator d = crc.new_CrcCalculator sht31_configuration true ->
    run cs d = Ok (tt, d', out) ->
    inv d' /\ out_ann d' = Some o /\
    crc_calculator d' = crc.new_CrcCalculator sht31_configuration true.
Proof.
  induction cs as [|c cs IH]; intros d d' out I Ho Hk E.
  - cbn in E. inversion E; subst. auto.
  - cbn [run] in E. unfold bind in E.
    destruct c as [|s e data]; cbn [perform] in E.
    + destruct (inv_reset d I) as [dr [Er Ir]]. rewrite Er in E.
      rewrite reset_eq in Er. inversion Er; subst dr. clear Er.
      destruct (run cs _) as [[[[] d1] o1]|] eqn:E1; [|discriminate E].
      inversion E; subst.
      apply (IH _ _ _ Ir Ho eq_refl E1).
    + destruct (decode_step_facts s e data d o I Ho)
        as [d1 [o1 [E1 [I1 [Hk1 [Ho1 _]]]]]].
      rewrite E1 in E.
      destruct (run cs d1) as [[[[] d2] o2]|] eqn:E2; [|discriminate E].
      inversion E; subst.
      apply (IH d1 d' o2 I1 Ho1); [congruence | exact E2].
Qed.

(** X7: the host's calls never change what [reset] and [start] set up.  After
    any calls that return, the output id is the registered one and the
    checksum calculator is the table-driven one for width 8, polynomial 0x31,
    initial value 0xFF. *)
Theorem calls_keep_output_and_calculator
        (o : nat) (cs : list call) (d : Decoder) (out : list Put) :
  run cs (started o) = Ok (tt, d, out) ->
  out_ann d = Some o /\
  crc_calculator d = crc.new_CrcCalculator sht31_configuration true /\
  crc.configuration (crc_calculator d) =
    crc.mkConfiguration 8 0x31 0xFF 0x00 false false /\
  crc.table_based (crc_calculator d) = true.
Proof.
  intros E.
  destruct (run_keeps_calculator cs o (started o) d out
              (inv_started o) eq_refl eq_refl E) as [_ [Ho Hk]].
  split; [assumption|]. split; [assumption|]. rewrite Hk. split; reflexivity.
Qed.

(** X7, after a reading cut short, a [reset] and a new START. *)
Lemma calls_keep_output_and_calculator_witness :
  out_ann (after (run [CallDecode 0 1 ("START", 0);
                       CallDecode 2 3 ("ADDRESS READ", 0x44);
                       CallDecode 10 11 ("DATA READ", 0x61);
                       CallReset;
                       CallDecode 20 21 ("START", 0)]) (started 7)) = Some 7%nat /\
  crc_calculator (after (run [CallDecode 0 1 ("START", 0);
                              CallDecode 2 3 ("ADDRESS READ", 0x44);
                              CallDecode 10 11 ("DATA READ", 0x61);
                              CallReset;
                              CallDecode 20 21 ("START", 0)]) (started 7)) =
    crc.new_CrcCalculator sht31_configuration true /\
  crc.configuration
    (crc_calculator (after (run [CallDecode 0 1 ("START", 0);
                                 CallDecode 2 3 ("ADDRESS READ", 0x44);
                                 CallDecode 10 11 ("DATA READ", 0x61);
                                 CallReset;
                                 CallDecode 20 21 ("START", 0)]) (started 7))) =
    crc.mkConfiguration 8 0x31 0xFF 0x00 false false /\
  crc.table_based
    (crc_calculator (after (run [CallDecode 0 1 ("START", 0);
                                 CallDecode 2 3 ("ADDRESS READ", 0x44);
                                 CallDecode 10 11 ("DATA READ", 0x61);
                                 CallReset;
                                 CallDecode 20 21 ("START", 0)]) (started 7))) = true.
Proof.
  apply (calls_keep_output_and_calculator
           7%nat
           [CallDecode 0 1 ("START", 0);
            CallDecode 2 3 ("ADDRESS READ", 0x44);
            CallDecode 10 11 ("DATA READ", 0x61);
            CallReset;
            CallDecode 20 21 ("START", 0)]
           _
           (output_of (run [CallDecode 0 1 ("START", 0);
                            CallDecode 2 3 ("ADDRESS READ", 0x44);
                            CallDecode 10 11 ("DATA READ", 0x61);
                            CallReset;
                            CallDecode 20 21 ("START", 0)]) (started 7))).
  vm_compute. reflexivity.
Defined.

(** X6: on a reachable decoder, one packet makes at most one annotation; the
    annotation goes to the registered output and its class is 0
    (temperature), 1 (humidity), 3 (checksum) or 4 (warning), never 2. *)
Theorem at_most_one_annotation_per_packet
        (d : Decoder) (s e : Z) (data : packet) :
  reachable d ->
  exists d' out,
    decode s e data d = Ok (tt, d', out) /\
    (List.length out <= 1)%nat /\
    (forall p, In p out ->
       Some (put_out p) = out_ann d /\ In (ann_class p) [0; 1; 3; 4]).
Proof.
  intros R. pose proof (reachable_inv d R) as I.
  destruct (inv_out d I) as [o Ho].
  destruct (decode_step_facts s e data d o I Ho)
    as [d' [out [E [_ [_ [_ [Hlen Hp]]]]]]].
  exists d', out. split; [assumption|]. split; [assumption|].
  intros p Hin. destruct (Hp p Hin) as [H1 H2].
  split; [congruence | assumption].
Qed.

(** X6, at the decoder that holds four bytes: the fifth byte makes the
    humidity annotation and nothing else. *)
Lemma at_most_one_annotation_per_packet_witness :
  exists d' out,
    decode 18 19 ("DATA READ", 0x21) four_bytes_in = Ok (tt, d', out) /\
    (List.length out <= 1)%nat /\
    (forall p, In p out ->
       Some (put_out p) = out_ann four_bytes_in /\
       In (ann_class p) [0; 1; 3; 4]).
Proof.
  apply at_most_one_annotation_per_packet.
  apply after_run_reachable. solve_wf.
Defined.

(** ** The checksum byte of a reading *)

(** X8: on a decoder the host has run from [start], the third and the sixth
    byte of a reading are checked against the CRC-8 (polynomial 0x31, initial
    value 0xFF) of the two bytes before them: the one annotation is "CRC: XX"
    in class 3 when the byte is that checksum and "Warning: CRC: XX" in class
    4 when it is not, XX being the checksum in both. *)
Theorem checksum_byte_is_checked_against_crc8
        (o : nat) (cs : list call) (d : Decoder) (out : list Put)
        (s e x y c : Z) :
  run cs (started o) = Ok (tt, d, out) ->
  state d = "READ PERIODIC DATA" ->
  (databytes d = [x; y] \/ exists b0 b1 b2, databytes d = [b0; b1; b2; x; y]) ->
  is_byte x -> is_byte y ->
  exists d',
    decode s e ("DATA READ", c) d =
      Ok (tt, d',
          [if crc8_reference [x; y] =? c
           then mkPut s e o 3 (Str ("CRC: " ++ fmt_02X (crc8_reference [x; y])))
           else mkPut s e o 4
                      (Str ("Warning: CRC: " ++ fmt_02X (crc8_reference [x; y])))]).
Proof.
  intros E Hst Hb Hx Hy.
  destruct (run_keeps_calculator cs o (started o) d out
              (inv_started o) eq_refl eq_refl E) as [_ [Ho Hk]].
  destruct (sht31_calculator_is_crc8 x y Hx Hy) as [Hc _].
  destruct d as [st l k oa s0 e0 sb eb];
    cbn [state databytes out_ann crc_calculator] in *.
  subst st oa k.
  destruct Hb as [-> | [b0 [b1 [b2 ->]]]];
    [rewrite push_at_2 | rewrite push_at_5];
    unfold crc_put, crc.verify_checksum; rewrite Hc;
    destruct (crc8_reference [x; y] =? c); eexists; reflexivity.
Qed.

(** X8, at the decoder that holds 0x61 0x62: their checksum is 0xF9. *)
Lemma checksum_byte_is_checked_against_crc8_witness :
  exists d',
    decode 14 15 ("DATA READ", 0xF9) two_bytes_in =
      Ok (tt, d',
          [if crc8_reference [0x61; 0x62] =? 0xF9
           then mkPut 14 15 0%nat 3
                      (Str ("CRC: " ++ fmt_02X (crc8_reference [0x61; 0x62])))
           else mkPut 14 15 0%nat 4
                      (Str ("Warning: CRC: "
                              ++ fmt_02X (crc8_reference [0x61; 0x62])))]).
Proof.
  apply (checksum_byte_is_checked_against_crc8
           0%nat
           [CallDecode 0 1 ("START", 0);
            CallDecode 2 3 ("ADDRESS READ", 0x44);
            CallDecode 10 11 ("DATA READ", 0x61);
            CallDecode 12 13 ("DATA READ", 0x62)]
           two_bytes_in
           (output_of (run [CallDecode 0 1 ("START", 0);
                            CallDecode 2 3 ("ADDRESS READ", 0x44);
                            CallDecode 10 11 ("DATA READ", 0x61);
                            CallDecode 12 13 ("DATA READ", 0x62)]) (started 0))).
  - vm_compute. reflexivity.
  - vm_compute. reflexivity.
  - left. vm_compute. reflexivity.
  - unfold is_byte. lia.
  - unfold is_byte. lia.
Defined.

(** ** A stream of data bytes *)

Lemma unfinished_short (l : list Z) :
  (List.length l <= 5)%nat -> unfinished l = l.
Proof.
  intros H. unfold unfinished.
  rewrite (Nat.div_small (List.length l) 6) by lia. reflexivity.
Qed.

Lemma unfinished_push (buf rest : list Z) (b : Z) :
  (List.length buf <= 5)%nat ->
  unfinished
    ((if (List.length (buf ++ [b]) =? 6)%nat then [] else (buf ++ [b])%list)
       ++ rest) =
  unfinished (buf ++ b :: rest).
Proof.
  intros H.
  replace (buf ++ b :: rest)%list with ((buf ++ [b]) ++ rest)%list
    by (rewrite <- app_assoc; reflexivity).
  destruct (Nat.eqb_spec (List.length (buf ++ [b])) 6) as [E | N];
    [|reflexivity].
  unfold unfinished. cbn [app]. rewrite length_app, E.
  replace (6 + List.length rest)%nat with (1 * 6 + List.length rest)%nat by lia.
  rewrite Nat.div_add_l by lia.
  replace (6 * (1 + List.length rest / 6))%nat
    with (List.length (buf ++ [b]) + 6 * (List.length rest / 6))%nat by lia.
  rewrite skipn_app.
  rewrite (skipn_all2 (buf ++ [b])) by lia.
  cbn [app]. f_equal. lia.
Qed.

Lemma data_reads_from (ps : list data_packet) :
  forall d,
    inv d -> state d = "READ PERIODIC DATA" ->
    exists d' out,
      run (map data_read ps) d = Ok (tt, d', out) /\
      inv d' /\
      state d' = "READ PERIODIC DATA" /\
      databytes d' = unfinished (databytes d ++ map pbyte ps).
Proof.
  induction ps as [|p ps IH]; intros d I Hst.
  - exists d, []. cbn [map run]. rewrite app_nil_r.
    rewrite (unfinished_short _ (inv_len d I)).
    split; [reflexivity|]. split; [assumption|]. split; [assumption | reflexivity].
  - destruct p as [[s e] b].
    destruct (decode_step_facts s e ("DATA READ", b) d)
      with (o := match out_ann d with Some o => o | None => O end)
      as [d1 [o1 [E1 [I1 _]]]]; [assumption | |].
    { destruct (inv_out d I) as [o ->]. reflexivity. }
    destruct (data_read_step d s e b I Hst) as [d1' [o1' [E1' [Hst1 [Hb1 _]]]]].
    rewrite E1 in E1'. inversion E1'; subst d1' o1'.
    destruct (IH d1 I1 Hst1) as [d' [out [E [I' [Hst' Hb']]]]].
    exists d', (o1 ++ out)%list. split.
    + cbn [map]. unfold data_read at 1, pss, pes, pbyte.
      cbn [run perform fst snd]. unfold bind. rewrite E1, E. reflexivity.
    + split; [assumption|]. split; [assumption|].
      rewrite Hb', Hb1. cbn [map]. unfold pbyte at 2. cbn [snd].
      apply unfinished_push. apply (inv_len d I).
Qed.

(** X9: DATA READ packets are framed by sixes.  From a reachable decoder
    that is reading, any number of them in a row return, and the buffer then
    holds what is left of the old buffer followed by the new bytes once every
    complete group of six is taken away; so it holds fewer than six bytes. *)
Theorem data_reads_are_framed_by_six (d : Decoder) (ps : list data_packet) :
  reachable d ->
  state d = "READ PERIODIC DATA" ->
  exists d' out,
    run (map data_read ps) d = Ok (tt, d', out) /\
    state d' = "READ PERIODIC DATA" /\
    databytes d' = unfinished (databytes d ++ map pbyte ps) /\
    List.length (databytes d') =
      ((List.length (databytes d) + List.length ps) mod 6)%nat.
Proof.
  intros R Hst.
  destruct (data_reads_from ps d (reachable_inv d R) Hst)
    as [d' [out [E [_ [Hst' Hb]]]]].
  exists d', out. split; [assumption|]. split; [assumption|].
  split; [assumption|].
  rewrite Hb. unfold unfinished. rewrite length_skipn, length_app, length_map.
  set (n := (List.length (databytes d) + List.length ps)%nat).
  pose proof (Nat.div_mod_eq n 6). lia.
Qed.

(** X9, at the decoder that holds two bytes: eleven more bytes leave one. *)
Lemma data_reads_are_framed_by_six_witness :
  exists d' out,
    run (map data_read
             [(14, 15, 0xBE); (16, 17, 0x63); (18, 19, 0x21); (20, 21, 0xAC);
              (30, 31, 0x01); (32, 33, 0x02); (34, 35, 0x03); (36, 37, 0x04);
              (38, 39, 0x05); (40, 41, 0x06); (50, 51, 0x07)])
        two_bytes_in = Ok (tt, d', out) /\
    state d' = "READ PERIODIC DATA" /\
    databytes d' =
      unfinished
        (databytes two_bytes_in
           ++ map pbyte
                [(14, 15, 0xBE); (16, 17, 0x63); (18, 19, 0x21); (20, 21, 0xAC);
                 (30, 31, 0x01); (32, 33, 0x02); (34, 35, 0x03); (36, 37, 0x04);
                 (38, 39, 0x05); (40, 41, 0x06); (50, 51, 0x07)]) /\
    List.length (databytes d') =
      ((List.length (databytes two_bytes_in)
        + List.length
            [(14, 15, 0xBE); (16, 17, 0x63); (18, 19, 0x21); (20, 21, 0xAC);
             (30, 31, 0x01); (32, 33, 0x02); (34, 35, 0x03); (36, 37, 0x04);
             (38, 39, 0x05); (40, 41, 0x06); (50, 51, 0x07)]) mod 6)%nat.
Proof.
  apply data_reads_are_framed_by_six.
  - exact two_bytes_in_reachable.
  - vm_compute. reflexivity.
Defined.
